(** * jaidegui: the GUI supervisor and the template store of [gui.py]

    A shallow embedding of the parts of [JaideGUI] that decide how a job is
    started and supervised ([go], [get_output], [write_to_output_area]),
    how the commit check boxes exclude one another
    ([commit_option_update]) and how templates are written and read back
    ([save_template], [open_template]).

    Python values are modelled by a small value type, [str] by Rocq's
    [string] (a Python 2 [str] is a byte string), the mutable [JaideGUI]
    object by an explicit state record, and Python exceptions by a state
    and exception monad in which the state survives a raise. *)

From Stdlib Require Import String Ascii List Bool ZArith NArith Lia Permutation.
Import ListNotations.
Open Scope string_scope.

(** ** The Python runtime pieces the source relies on *)

Module Py.

(** Values that travel through the output queue and the argument bundle. *)
Inductive value : Type :=
| VNone
| VBool (b : bool)
| VInt (n : Z)
| VStr (s : string).

(** Exceptions raised by the modelled code. *)
Inductive exn : Type :=
| IOError (msg : string)
| KeyError (key : string)
| IndexError
| TypeError (msg : string)
| ValueError (msg : string)
| UnboundLocalError (name : string)
| QueueEmpty.

(** [c in string.whitespace] for a byte of a [str]. *)
Definition is_space (c : ascii) : bool :=
  match N_of_ascii c with
  | 9%N | 10%N | 11%N | 12%N | 13%N | 32%N => true
  | _ => false
  end.

(** [s.rstrip()] *)
Fixpoint rstrip (s : string) : string :=
  match s with
  | EmptyString => EmptyString
  | String c s' =>
      match rstrip s' with
      | EmptyString => if is_space c then EmptyString else String c EmptyString
      | r => String c r
      end
  end.

(** [s.lstrip()] *)
Fixpoint lstrip (s : string) : string :=
  match s with
  | EmptyString => EmptyString
  | String c s' => if is_space c then lstrip s' else s
  end.

(** [s.strip()] *)
Definition strip (s : string) : string := rstrip (lstrip s).

(** [s.lower()] on a byte string: only A-Z change. *)
Definition lower_char (c : ascii) : ascii :=
  let n := N_of_ascii c in
  if ((65 <=? n) && (n <=? 90))%N then ascii_of_N (n + 32) else c.

Fixpoint lower (s : string) : string :=
  match s with
  | EmptyString => EmptyString
  | String c s' => String (lower_char c) (lower s')
  end.

(** [c in s] for a one character [c]. *)
Fixpoint mem_char (c : ascii) (s : string) : bool :=
  match s with
  | EmptyString => false
  | String d s' => Ascii.eqb c d || mem_char c s'
  end.

(** [sub in s]: some suffix of [s] starts with [sub]. *)
Fixpoint contains (sub s : string) : bool :=
  String.prefix sub s ||
  match s with
  | EmptyString => false
  | String _ s' => contains sub s'
  end.

(** [s.split(sep)] for a non-empty separator.  [skip] counts the characters
    of a separator occurrence that are still to be passed over, [cur] is the
    field read so far. *)
Fixpoint split_from (sep : string) (skip : nat) (cur s : string) : list string :=
  match s with
  | EmptyString => [cur]
  | String c s' =>
      match skip with
      | S k => split_from sep k cur s'
      | O =>
          if String.prefix sep s
          then cur :: split_from sep (String.length sep - 1) EmptyString s'
          else split_from sep 0 (cur ++ String c EmptyString) s'
      end
  end.

Definition split (sep s : string) : list string := split_from sep 0 EmptyString s.

(** [f.readlines()] on the content of a file opened in binary mode: every
    line keeps its line feed, a last line without one is kept as it is. *)
Fixpoint readlines_from (cur s : string) : list string :=
  match s with
  | EmptyString => match cur with EmptyString => [] | _ => [cur] end
  | String c s' =>
      if Ascii.eqb c "010"%char
      then (cur ++ String c EmptyString) :: readlines_from EmptyString s'
      else readlines_from (cur ++ String c EmptyString) s'
  end.

Definition readlines (content : string) : list string :=
  readlines_from EmptyString content.

(** [s[-1:]] *)
Fixpoint last_slice (s : string) : string :=
  match s with
  | EmptyString => EmptyString
  | String c EmptyString => s
  | String _ s' => last_slice s'
  end.

(** Decimal digits of [int(s)]. *)
Definition digit_of (c : ascii) : option Z :=
  let n := N_of_ascii c in
  if ((48 <=? n) && (n <=? 57))%N then Some (Z.of_N n - 48)%Z else None.

Fixpoint digits_from (acc : Z) (s : string) : option Z :=
  match s with
  | EmptyString => Some acc
  | String c s' =>
      match digit_of c with
      | Some d => digits_from (10 * acc + d)%Z s'
      | None => None
      end
  end.

Definition unsigned_of (s : string) : option Z :=
  match s with
  | EmptyString => None
  | _ => digits_from 0%Z s
  end.

(** [repr(s)] for a [str], as [str(KeyError(s))] prints the key. *)
Definition hex_digit (n : N) : ascii :=
  if (n <? 10)%N then ascii_of_N (48 + n) else ascii_of_N (87 + n).

Definition repr_char (quote c : ascii) : string :=
  let n := N_of_ascii c in
  if Ascii.eqb c quote || Ascii.eqb c "\"%char then String "\"%char (String c EmptyString)
  else if Ascii.eqb c "009"%char then "\t"
  else if Ascii.eqb c "010"%char then "\n"
  else if Ascii.eqb c "013"%char then "\r"
  else if ((n <? 32) || (127 <=? n))%N
       then String "\"%char (String "x"%char
              (String (hex_digit (n / 16)) (String (hex_digit (n mod 16)) EmptyString)))
  else String c EmptyString.

Fixpoint repr_body (quote : ascii) (s : string) : string :=
  match s with
  | EmptyString => EmptyString
  | String c s' => repr_char quote c ++ repr_body quote s'
  end.

Definition repr (s : string) : string :=
  let quote :=
    if mem_char "'"%char s && negb (mem_char "034"%char s)
    then "034"%char else "'"%char in
  String quote (repr_body quote s ++ String quote EmptyString).

(** [int(s)] for a [str]: surrounding whitespace is dropped, one sign is
    allowed, the rest must be decimal digits; anything else raises
    [ValueError]. *)
Definition int_of_str (s : string) : exn + Z :=
  let t := strip s in
  let r :=
    match t with
    | String "-"%char u => option_map Z.opp (unsigned_of u)
    | String "+"%char u => unsigned_of u
    | _ => unsigned_of t
    end in
  match r with
  | Some n => inr n
  | None => inl (ValueError ("invalid literal for int() with base 10: " ++ repr s))
  end.

(** [str(e)] *)
Definition str_exn (e : exn) : string :=
  match e with
  | IOError msg => msg
  | KeyError key => repr key
  | IndexError => "list index out of range"
  | TypeError msg => msg
  | ValueError msg => msg
  | UnboundLocalError name =>
      "local variable '" ++ name ++ "' referenced before assignment"
  | QueueEmpty => EmptyString
  end.

End Py.

(** ** [base64.b64encode] and [base64.b64decode]

    [b64encode] is [binascii.b2a_base64] without its final line feed;
    [b64decode] is [binascii.a2b_base64], whose [binascii.Error] is turned
    into a [TypeError].  The decoder is the scanning loop of [binascii]: it
    passes over every byte outside the alphabet, shifts six bits in for
    every byte of the alphabet, stops at a pad sequence, and fails with
    "Incorrect padding" when bits are left over. *)

Module Base64.

Definition table_b2a : string :=
  "ABCDEFGHIJKLMNOPQRSTUVWXYZabcdefghijklmnopqrstuvwxyz0123456789+/".

Definition pad : ascii := "="%char.

Definition b2a (n : N) : ascii :=
  match String.get (N.to_nat n) table_b2a with
  | Some c => c
  | None => pad
  end.

Definition byte (c : ascii) : N := N_of_ascii c.

(** The six bit groups of three bytes [a], [b], [c]. *)
Definition g1 (a : ascii) : N := N.shiftr (byte a) 2.

Definition g2 (a b : ascii) : N :=
  N.lor (N.shiftl (N.land (byte a) 3) 4) (N.shiftr (byte b) 4).

Definition g3 (b c : ascii) : N :=
  N.lor (N.shiftl (N.land (byte b) 15) 2) (N.shiftr (byte c) 6).

Definition g4 (c : ascii) : N := N.land (byte c) 63.

(** The last group when one byte, or two bytes, are left over. *)
Definition tail2 (a : ascii) : N := N.shiftl (N.land (byte a) 3) 4.

Definition tail3 (b : ascii) : N := N.shiftl (N.land (byte b) 15) 2.

(** Four characters for every three bytes; what is left over is padded. *)
Fixpoint b64encode (s : string) : string :=
  match s with
  | EmptyString => EmptyString
  | String a EmptyString =>
      String (b2a (g1 a)) (String (b2a (tail2 a)) (String pad (String pad EmptyString)))
  | String a (String b EmptyString) =>
      String (b2a (g1 a))
        (String (b2a (g2 a b)) (String (b2a (tail3 b)) (String pad EmptyString)))
  | String a (String b (String c rest)) =>
      String (b2a (g1 a))
        (String (b2a (g2 a b))
           (String (b2a (g3 b c)) (String (b2a (g4 c)) (b64encode rest))))
  end.

(** [table_a2b_base64]: the six bit value of a byte of the alphabet. *)
Fixpoint index_of (c : ascii) (s : string) (i : N) : option N :=
  match s with
  | EmptyString => None
  | String d s' => if Ascii.eqb c d then Some i else index_of c s' (i + 1)%N
  end.

Definition table_a2b (c : ascii) : option N := index_of c table_b2a 0%N.

(** How the decoding loop treats one input byte. *)
Inductive b64class : Type :=
| Skip
| Pad
| Val (v : N).

Definition classify (c : ascii) : b64class :=
  if ((127 <? byte c)%N || Ascii.eqb c "013"%char || Ascii.eqb c "010"%char
      || Ascii.eqb c " "%char)
  then Skip
  else if Ascii.eqb c pad then Pad
  else match table_a2b c with
       | Some v => Val v
       | None => Skip
       end.

(** [binascii_find_valid]: the [(num+1)]-th byte of [s] that belongs to the
    alphabet or is the pad. *)
Fixpoint find_valid (s : string) (num : nat) : option ascii :=
  match s with
  | EmptyString => None
  | String c s' =>
      if ((byte c <=? 127)%N &&
          (Ascii.eqb c pad || match table_a2b c with Some _ => true | None => false end))
      then match num with
           | O => Some c
           | S k => find_valid s' k
           end
      else find_valid s' num
  end.

Definition is_pad (o : option ascii) : bool :=
  match o with
  | Some c => Ascii.eqb c pad
  | None => false
  end.

(** One byte of the alphabet is shifted in on the low end; when eight bits
    are there, a byte of output is taken off the high end.  The result is
    that byte, if any, and the new [leftchar] and [leftbits]. *)
Definition shift_in (leftchar leftbits v : N) : option ascii * N * N :=
  let leftchar := N.lor (N.shiftl leftchar 6) v in
  let leftbits := (leftbits + 6)%N in
  if (8 <=? leftbits)%N
  then
    let leftbits := (leftbits - 8)%N in
    (Some (ascii_of_N (N.land (N.shiftr leftchar leftbits) 255)),
     N.land leftchar (N.shiftl 1 leftbits - 1), leftbits)
  else (None, leftchar, leftbits).

Definition emit_byte (out : option ascii) (rest : option string) : option string :=
  match out, rest with
  | Some b, Some r => Some (String b r)
  | None, Some r => Some r
  | _, None => None
  end.

(** The loop of [a2b_base64] over the remaining input [s]; the result is the
    decoded bytes from here on, or [None] for "Incorrect padding". *)
Fixpoint a2b_loop (s : string) (leftchar leftbits quad_pos : N) : option string :=
  match s with
  | EmptyString => if (leftbits =? 0)%N then Some EmptyString else None
  | String c rest =>
      match classify c with
      | Skip => a2b_loop rest leftchar leftbits quad_pos
      | Pad =>
          if ((quad_pos <? 2)%N ||
              ((quad_pos =? 2)%N && negb (is_pad (find_valid s 1))))
          then a2b_loop rest leftchar leftbits quad_pos
          else Some EmptyString
      | Val v =>
          match shift_in leftchar leftbits v with
          | (out, leftchar', leftbits') =>
              emit_byte out (a2b_loop rest leftchar' leftbits' (N.land (quad_pos + 1) 3))
          end
      end
  end.

Definition a2b_base64 (s : string) : option string := a2b_loop s 0 0 0.

Definition b64decode (s : string) : Py.exn + string :=
  match a2b_base64 s with
  | Some out => inr out
  | None => inl (Py.TypeError "Incorrect padding")
  end.

End Base64.

(** ** The state of the [JaideGUI] object and of its surroundings *)

(** The widgets and Tk variables that hold a value. *)
Inductive widget : Type :=
| ip_entry | timeout_entry | conn_timeout_entry
| username_entry | password_entry | port_entry
| wtf_entry | wtf_checkbox | wtf_radiobuttons
| option_value | option_entry | format_box
| scp_direction_value | scp_dest_entry
| commit_check_button | commit_blank | commit_confirmed_button
| commit_confirmed_min_entry | commit_synch
| commit_comment | commit_comment_entry
| commit_at | commit_at_entry
| diff_config_mode | help_value.

Definition widget_eq_dec (a b : widget) : {a = b} + {a <> b}.
Proof. decide equality. Defined.

Inductive button : Type := go_button | stop_button | clear_button | save_button.

Definition button_eq_dec (a b : button) : {a = b} + {a <> b}.
Proof. decide equality. Defined.

Inductive button_state : Type := normal | disabled.

(** The functions of [jaide.wrap] that [option_conversion] refers to. *)
Inductive wrap : Type :=
| wrap_diff_config | wrap_device_info | wrap_health_check
| wrap_interface_errors | wrap_command | wrap_push | wrap_pull
| wrap_commit | wrap_shell | wrap_compare.

Definition wrap_eqb (a b : wrap) : bool :=
  match a, b with
  | wrap_diff_config, wrap_diff_config | wrap_device_info, wrap_device_info
  | wrap_health_check, wrap_health_check
  | wrap_interface_errors, wrap_interface_errors
  | wrap_command, wrap_command | wrap_push, wrap_push | wrap_pull, wrap_pull
  | wrap_commit, wrap_commit | wrap_shell, wrap_shell
  | wrap_compare, wrap_compare => true
  | _, _ => false
  end.

(** The keyword arguments [go] builds a [WorkerThread] from. *)
Record WorkerThread : Type := {
  argsToPass : list Py.value;
  sess_timeout : string;
  conn_timeout : string;
  port : string;
  command : wrap;
  ip : string;
  username : string;
  password : string;
  write_to_file : string;
  wtf_style : string
}.

(** What the GUI does to the world around it, in the order it does it. *)
Inductive event : Type :=
| MarkSetEnd                                  (* output_area.mark_set(INSERT, END) *)
| Insert (text : string)                      (* output_area.insert(END, text); see(END) *)
| Configure (b : button) (s : button_state)   (* b.configure(state=s) *)
| ShowInfo (title message : string)           (* tkMessageBox.showinfo *)
| Start (w : WorkerThread)                    (* thread.start() *)
| Join                                        (* thread.join() *)
| After (ms : Z).                             (* self.after(ms, self.get_output) *)

Record gui : Type := {
  values : widget -> string;
  buttons : button -> button_state;
  stdout_queue : list Py.value;
  thread : option WorkerThread;
  (* open(path, "rb"): the error text of the IOError, or the content *)
  files : string -> string + string;
  (* open(path, "wb"): the error text of the IOError, if it fails *)
  write_error : string -> option string;
  trace : list event
}.

Definition with_values (f : widget -> string) (g : gui) : gui :=
  {| values := f; buttons := buttons g; stdout_queue := stdout_queue g;
     thread := thread g; files := files g; write_error := write_error g;
     trace := trace g |}.

Definition with_buttons (f : button -> button_state) (g : gui) : gui :=
  {| values := values g; buttons := f; stdout_queue := stdout_queue g;
     thread := thread g; files := files g; write_error := write_error g;
     trace := trace g |}.

Definition with_queue (q : list Py.value) (g : gui) : gui :=
  {| values := values g; buttons := buttons g; stdout_queue := q;
     thread := thread g; files := files g; write_error := write_error g;
     trace := trace g |}.

Definition with_thread (t : option WorkerThread) (g : gui) : gui :=
  {| values := values g; buttons := buttons g; stdout_queue := stdout_queue g;
     thread := t; files := files g; write_error := write_error g;
     trace := trace g |}.

Definition with_files (f : string -> string + string) (g : gui) : gui :=
  {| values := values g; buttons := buttons g; stdout_queue := stdout_queue g;
     thread := thread g; files := f; write_error := write_error g;
     trace := trace g |}.

Definition with_trace (t : list event) (g : gui) : gui :=
  {| values := values g; buttons := buttons g; stdout_queue := stdout_queue g;
     thread := thread g; files := files g; write_error := write_error g;
     trace := t |}.

Definition upd {A : Type} (f : widget -> A) (w : widget) (a : A) : widget -> A :=
  fun x => if widget_eq_dec x w then a else f x.

Definition upd_button (f : button -> button_state) (b : button) (s : button_state)
  : button -> button_state :=
  fun x => if button_eq_dec x b then s else f x.

Definition upd_file (f : string -> string + string) (path : string) (n : string + string)
  : string -> string + string :=
  fun x => if String.eqb x path then n else f x.

(** The text the output area shows: every insertion goes to its end. *)
Fixpoint inserted (t : list event) : string :=
  match t with
  | [] => EmptyString
  | Insert text :: t' => text ++ inserted t'
  | _ :: t' => inserted t'
  end.

Definition output_area (g : gui) : string := inserted (trace g).

(** ** Statements that may raise: state passing with exceptions

    A statement maps the state to an outcome and the state it leaves; what
    was done before a raise stays done. *)

Definition M (A : Type) : Type := gui -> (Py.exn + A) * gui.

Definition ret {A : Type} (a : A) : M A := fun g => (inr a, g).

Definition raise {A : Type} (e : Py.exn) : M A := fun g => (inl e, g).

Definition bind {A B : Type} (c : M A) (k : A -> M B) : M B :=
  fun g =>
    match c g with
    | (inr a, g') => k a g'
    | (inl e, g') => (inl e, g')
    end.

Notation "x <- c ;; k" := (bind c (fun x => k))
  (at level 61, c at next level, right associativity).
Notation "c ;; k" := (bind c (fun _ => k))
  (at level 61, right associativity).

(** [try: body / except: handler / else: orelse].  The handler answers
    [None] for an exception its clause does not name. *)
Definition try_except_else {A B : Type}
    (body : M A) (handler : Py.exn -> option (M B)) (orelse : A -> M B) : M B :=
  fun g =>
    match body g with
    | (inr a, g') => orelse a g'
    | (inl e, g') =>
        match handler e with
        | Some h => h g'
        | None => (inl e, g')
        end
    end.

Definition try_except {A : Type} (body : M A) (handler : Py.exn -> option (M A)) : M A :=
  try_except_else body handler ret.

(** [try: body / finally: final] *)
Definition try_finally {A : Type} (body : M A) (final : M unit) : M A :=
  fun g =>
    match body g with
    | (r, g') =>
        match final g' with
        | (inr _, g'') => (r, g'')
        | (inl e, g'') => (inl e, g'')
        end
    end.

(** [for x in l: body x] *)
Fixpoint for_each {A : Type} (l : list A) (body : A -> M unit) : M unit :=
  match l with
  | [] => ret tt
  | x :: l' => body x ;; for_each l' body
  end.

Definition lift {A : Type} (r : Py.exn + A) : M A := fun g => (r, g).

(** Reading a local variable that no assignment has reached. *)
Definition read_local {A : Type} (name : string) (v : option A) : M A :=
  match v with
  | Some a => ret a
  | None => raise (Py.UnboundLocalError name)
  end.

(** [d[key]] on a dictionary given by its items. *)
Fixpoint lookup {A : Type} (key : string) (d : list (string * A)) : option A :=
  match d with
  | [] => None
  | (k, a) :: d' => if String.eqb key k then Some a else lookup key d'
  end.

Definition getitem {A : Type} (d : list (string * A)) (key : string) : M A :=
  match lookup key d with
  | Some a => ret a
  | None => raise (Py.KeyError key)
  end.

(** [l[i]] on a list. *)
Definition index {A : Type} (l : list A) (i : nat) : M A :=
  match nth_error l i with
  | Some a => ret a
  | None => raise Py.IndexError
  end.

Definition emit (e : event) : M unit :=
  fun g => (inr tt, with_trace (trace g ++ [e]) g).

(** Modelled from the spec: [jgui_widgets] ([JaideEntry], [JaideCheckbox],
    [JaideRadiobutton]) is not part of the sources; a template record maps
    a field name to a string value, so every widget is a cell that holds
    the string last set and gives it back.  A check box holds "1" when it
    is selected and "0" when it is not, as its Tk variable does. *)
Definition get (w : widget) : M string := fun g => (inr (values g w), g).

Definition set (w : widget) (v : string) : M unit :=
  fun g => (inr tt, with_values (upd (values g) w v) g).

Definition checked (w : widget) : M bool :=
  fun g => (inr (String.eqb (values g w) "1"), g).

Definition select (w : widget) : M unit := set w "1".

Definition deselect (w : widget) : M unit := set w "0".

Definition configure (b : button) (s : button_state) : M unit :=
  fun g => (inr tt,
            with_trace (trace g ++ [Configure b s])
              (with_buttons (upd_button (buttons g) b s) g)).

Definition nl : string := String "010"%char EmptyString.

(** ** The tables [__init__] builds *)

Definition yes_options : list string :=
  ["Operational Command(s)"; "Set Command(s)"; "Shell Command(s)"; "SCP Files";
   "Diff Config"; "Show | Compare"].

Definition option_conversion : list (string * wrap) :=
  [("Diff Config", wrap_diff_config);
   ("Device Info", wrap_device_info);
   ("Health Check", wrap_health_check);
   ("Interface Errors", wrap_interface_errors);
   ("Operational Command(s)", wrap_command);
   ("SCP Files", wrap_push);
   ("Set Command(s)", wrap_commit);
   ("Shell Command(s)", wrap_shell);
   ("Show | Compare", wrap_compare)].

Definition help_conversion : list (string * string) :=
  [("Show | Compare",
    "Quick Help: Run a 'show | compare' in Junos against a given list of set commands. " ++
    "The command(s) can be a single command, a comma separated list, or a filepath of many commands.");
   ("Device Info",
    "Quick Help: Device Info pulls some baseline information from the device(s), including " ++
    "Hostname, Model, Junos Version, and Chassis Serial Number.");
   ("Diff Config",
    "Quick Help: Compare the configuration between two devices. Specify the second IP/hostname," ++
    " and choose whether to do set mode or stanza mode. If you are not familiar with the format of the output," ++
    " take a look at 'git diff output' on google.");
   ("Health Check",
    "Quick Help: Health Check runs multiple commands to get routing-engine CPU/memory info, " ++
    "busy processes, temperatures, and alarms. The output will likely show the mgd process using " ++
    "high CPU, this is normal due to the execution of the script logging in and running the commands.");
   ("Interface Errors",
    "Quick Help: Interface Errors will tell you of any input or output errors on all interfaces.");
   ("Operational Command(s)",
    "Quick Help: Run one or more operational command(s) against the device(s). This can " ++
    "be any non-interactive command(s) that can be run from operational mode. This includes show, " ++
    "request, traceroute, op scripts, etc.");
   ("SCP Files",
    "Quick Help: SCP file(s) or folder(s) to or from one or more devices. Specify a source and destination " ++
    "file or folder. If Pulling, the source is the remote file/folder, and the destination is the local " ++
    "folder you are putting them. If Pushing, the source is the local file/folder, and the destination would" ++
    " the folder to put them on the remote device. Note, the '~' home directory link can not be used!");
   ("Set Command(s)",
    "Quick Help: A single or multiple set commands that will be sent and committed to the device(s). " ++
    "There are additional optional commit modifiers, which can be used to do several different things. " ++
    "Much more information can be found in the help files.");
   ("Shell Command(s)",
    "Quick Help: Send one or more shell commands to the device(s). Be wary when sending shell " ++
    "commands, you can make instant changes or potentially harm the networking device. Care should be taken.")].

(** The dictionary for reading and writing template files. *)
Definition template_opts : list (string * widget) :=
  [("IP", ip_entry);
   ("Timeout", timeout_entry);
   ("Username", username_entry);
   ("Password", password_entry);
   ("WriteToFileBool", wtf_checkbox);
   ("WriteToFileLoc", wtf_entry);
   ("SingleOrMultipleFiles", wtf_radiobuttons);
   ("Option", option_value);
   ("FirstArgument", option_entry);
   ("SCPDest", scp_dest_entry);
   ("SCPDirection", scp_direction_value);
   ("CommitCheck", commit_check_button);
   ("CommitConfirmed", commit_confirmed_button);
   ("CommitConfirmedMin", commit_confirmed_min_entry);
   ("CommitBlank", commit_blank);
   ("CommitAt", commit_at);
   ("CommitAtTime", commit_at_entry);
   ("CommitComment", commit_comment);
   ("CommitCommentValue", commit_comment_entry);
   ("CommitSynch", commit_synch);
   ("Format", format_box);
   ("DiffMode", diff_config_mode)].

(** The field separator of a template line. *)
Definition separator : string := ":~:".

(** ** Regular expressions of [input_validation]

    [re.match] anchors a pattern at the start of the text only, so an
    optional or repeated tail never makes a match fail: a text matches as
    soon as it starts with the mandatory part. *)

Definition in_range (lo hi : N) (c : ascii) : bool :=
  ((lo <=? N_of_ascii c) && (N_of_ascii c <=? hi))%N.

Definition digit : ascii -> bool := in_range 48 57.
Definition upto (hi : N) : ascii -> bool := in_range 48 hi.
Definition lit (d : ascii) : ascii -> bool := fun c => Ascii.eqb c d.

Fixpoint match_classes (p : list (ascii -> bool)) (s : string) : bool :=
  match p, s with
  | [], _ => true
  | _ :: _, EmptyString => false
  | k :: p', String c s' => k c && match_classes p' s'
  end.

(** [([0-2]\d)(:[0-5]\d){1,2}] *)
Definition re_time : list (ascii -> bool) :=
  [upto 50; digit; lit ":"; upto 53; digit].

(** [\d{4}-[01]\d-[0-3]\d [0-2]\d:[0-5]\d(:[0-5]\d)?] *)
Definition re_datetime : list (ascii -> bool) :=
  [digit; digit; digit; digit; lit "-"; upto 49; digit; lit "-"; upto 51; digit;
   lit " "; upto 50; digit; lit ":"; upto 53; digit].

Definition in_list (s : string) (l : list string) : bool :=
  existsb (String.eqb s) l.

(** ** The methods of [JaideGUI] *)

Section JaideGUI.

(** [a is b] on two [str] objects.  Identity of objects is not a function
    of their values in Python; the outcome of the one identity test of the
    source is left to the interpreter. *)
Variable same_object : string -> string -> bool.

(** [jaide.utils.clean_lines], of the [jaide] package. *)
Variable clean_lines : string -> list string.

Definition flag (b : bool) : Py.value := Py.VInt (if b then 1 else 0).

(** [if output[-1:] is not "\n": output += "\n"] *)
Definition with_newline (output : string) : string :=
  if negb (same_object (Py.last_slice output) nl) then output ++ nl else output.

(** [write_to_output_area(output)] *)
Definition write_to_output_area (output : Py.value) : M unit :=
  match output with
  | Py.VStr s => emit (Insert (with_newline s))
  | _ => ret tt
  end.

(** [stdout_queue.get_nowait()] *)
Definition get_nowait : M Py.value :=
  fun g =>
    match stdout_queue g with
    | [] => (inl Py.QueueEmpty, g)
    | c :: q => (inr c, with_queue q g)
    end.

(** [stdout_queue.empty()] *)
Definition queue_empty : M bool :=
  fun g => (inr (match stdout_queue g with [] => true | _ => false end), g).

(** What the worker thread puts on the queue while the GUI thread is at work. *)
Definition worker_puts (chunks : list Py.value) : M unit :=
  fun g => (inr tt, with_queue (stdout_queue g ++ chunks) g).

(** [while not self.stdout_queue.empty(): ...]; the queue only shrinks in
    the loop, so its length bounds the number of rounds. *)
Fixpoint drain_rounds (rounds : nat) : M unit :=
  match rounds with
  | O => ret tt
  | S n =>
      e <- queue_empty ;;
      if e then ret tt
      else c <- get_nowait ;; write_to_output_area c ;; drain_rounds n
  end.

Definition drain : M unit :=
  fun g => drain_rounds (List.length (stdout_queue g)) g.

Definition completed_notice : string := "****** Jaide Command Completed ******" ++ nl.

(** [get_output()], one tick of the supervisor.  [arrived] are the chunks
    the worker put on the queue between the first read of the queue and
    the liveness test; [alive] is what [thread.isAlive()] answers. *)
Definition get_output (arrived : list Py.value) (alive : bool) : M unit :=
  try_except
    (c <- get_nowait ;; write_to_output_area c)
    (fun e => match e with Py.QueueEmpty => Some (ret tt) | _ => None end) ;;
  worker_puts arrived ;;
  if negb alive then
    drain ;;
    configure go_button normal ;;
    configure clear_button normal ;;
    configure stop_button disabled ;;
    configure save_button normal ;;
    write_to_output_area (Py.VStr completed_notice) ;;
    emit Join
  else
    emit (After 100).

(** [input_validation()] *)
Definition input_validation : M bool :=
  ip <- get ip_entry ;;
  user <- get username_entry ;;
  pass <- get password_entry ;;
  wtf <- get wtf_entry ;;
  wtf_on <- checked wtf_checkbox ;;
  opt <- get option_value ;;
  arg <- get option_entry ;;
  blank <- checked commit_blank ;;
  at_on <- checked commit_at ;;
  at_text <- get commit_at_entry ;;
  comment_on <- checked commit_comment ;;
  comment_text <- get commit_comment_entry ;;
  if String.eqb ip "" then
    emit (ShowInfo "IP Entry" "Please enter an IP address or IP address list file.") ;;
    ret false
  else if in_list "" [user; pass] then
    emit (ShowInfo "Credentials" "Please enter both a username and password.") ;;
    ret false
  else if String.eqb wtf "" && wtf_on then
    emit (ShowInfo "Write to File"
            "When writing to a file, a filename must be specified.") ;;
    ret false
  else if in_list opt yes_options && String.eqb arg "" && negb blank then
    emit (ShowInfo "Option Input"
            ("You chose an option that requires extra input, and didn't specify" ++
             " any additional information. For example, when selecting " ++
             String "034"%char "Operational Command(s)" ++ String "034"%char "," ++
             " a command string must be typed into the entry box.")) ;;
    ret false
  else if (String.eqb opt "Set Command(s)" && at_on) &&
          (String.eqb at_text "" ||
           (negb (match_classes re_time at_text) &&
            negb (match_classes re_datetime at_text))) then
    emit (ShowInfo "Commit At Time"
            ("The time value you wrote for commit at was not valid. It must be one" ++
             " of two formats (seconds are optional):" ++ nl ++ "'hh:mm[:ss]'" ++ nl ++
             "'yyyy-mm-dd hh:mm[:ss]'")) ;;
    ret false
  else if (String.eqb opt "Set Command(s)" && comment_on) &&
          (String.eqb comment_text "" || Py.mem_char "034"%char comment_text) then
    emit (ShowInfo "Commit Comment"
            ("If commenting on the commit, you must specify a string, and " ++
             "it cannot contain double-quotes (" ++ String "034"%char ").")) ;;
    ret false
  else
    try_except_else
      (confirmed_on <- checked commit_confirmed_button ;;
       if String.eqb opt "Set Command(s)" && confirmed_on then
         minutes <- get commit_confirmed_min_entry ;;
         _ <- lift (Py.int_of_str minutes) ;;
         ret tt
       else ret tt)
      (fun e =>
         match e with
         | Py.ValueError _ =>
             Some (emit (ShowInfo "Commit Confirmed"
                           ("A Commit Confirmed value must be an integer between 1 and" ++
                            " 60 minutes.")) ;;
                   ret false)
         | _ => None
         end)
      (fun _ =>
         try_except_else
           (_ <- get timeout_entry ;; ret tt)
           (fun e =>
              match e with
              | Py.ValueError _ =>
                  Some (emit (ShowInfo "Timeout"
                                ("A timeout value must be an integer, in minutes, between 1 " ++
                                 "and 60.")) ;;
                        ret false)
              | _ => None
              end)
           (fun _ => ret true)).

(** [go(event)] *)
Definition go (arrived : list Py.value) (alive : bool) : M unit :=
  valid <- input_validation ;;
  if valid then
    emit MarkSetEnd ;;
    write_to_output_area (Py.VStr ("****** Starting Jaide ******" ++ nl)) ;;
    user <- get username_entry ;;
    let username := Py.strip user in
    timeout <- get timeout_entry ;;
    xml <- checked format_box ;;
    let out_fmt := if xml then "xml" else "text" in
    ips <- get ip_entry ;;
    let multi := Nat.ltb 1 (List.length (clean_lines ips)) in
    opt <- get option_value ;;
    function <- getitem option_conversion opt ;;
    direction <- get scp_direction_value ;;
    let function :=
      if String.eqb direction "Pull" && wrap_eqb function wrap_push
      then wrap_pull else function in
    at_on <- checked commit_at ;;
    at_time <- (if at_on then t <- get commit_at_entry ;; ret (Py.VStr t)
                else ret Py.VNone) ;;
    confirmed_on <- checked commit_confirmed_button ;;
    confirmed <- (if confirmed_on
                  then minutes <- get commit_confirmed_min_entry ;;
                       n <- lift (Py.int_of_str minutes) ;;
                       ret (Py.VInt (n * 60))
                  else ret Py.VNone) ;;
    comment_on <- checked commit_comment ;;
    comment <- (if comment_on then t <- get commit_comment_entry ;; ret (Py.VStr t)
                else ret Py.VNone) ;;
    arg <- get option_entry ;;
    mode <- get diff_config_mode ;;
    check <- checked commit_check_button ;;
    synch <- checked commit_synch ;;
    blank <- checked commit_blank ;;
    dest <- get scp_dest_entry ;;
    let args_translation :=
      [("Operational Command(s)",
        [Py.VStr (Py.strip arg); Py.VStr out_fmt; Py.VBool false]);
       ("Device Info", []);
       ("Diff Config", [Py.VStr (Py.strip arg); Py.VStr (Py.lower mode)]);
       ("Health Check", []);
       ("Interface Errors", []);
       ("Set Command(s)",
        [Py.VStr (Py.strip arg); flag check; flag synch; comment; confirmed;
         at_time; flag blank]);
       ("SCP Files",
        [Py.VStr (Py.strip arg); Py.VStr dest; Py.VBool false; Py.VBool multi]);
       ("Shell Command(s)", [Py.VStr (Py.strip arg)]);
       ("Show | Compare", [Py.VStr (Py.strip arg)])] in
    args <- getitem args_translation opt ;;
    wtf_on <- checked wtf_checkbox ;;
    write_to <- (if wtf_on then get wtf_entry else ret "") ;;
    conn <- get conn_timeout_entry ;;
    prt <- get port_entry ;;
    pass <- get password_entry ;;
    style <- get wtf_radiobuttons ;;
    let worker :=
      {| argsToPass := args; sess_timeout := timeout; conn_timeout := conn;
         port := prt; command := function; ip := ips; username := username;
         password := Py.strip pass; write_to_file := write_to; wtf_style := style |} in
    (fun g => (inr tt, with_thread (Some worker) g)) ;;
    emit (Start worker) ;;
    configure go_button disabled ;;
    configure clear_button disabled ;;
    configure stop_button normal ;;
    configure save_button disabled ;;
    get_output arrived alive
  else ret tt.

(** The three ways [__init__] offers to run the script.  Tk does not call
    the command of a button whose state is [disabled]; the key binding and
    the menu entry are never configured again after [__init__]. *)
Inductive action : Type :=
| RunScriptButton      (* go_button, command=lambda: self.go(None) *)
| ControlR             (* bind_all("<Control-r>", self.go) *)
| RunScriptMenu.       (* menu_file.add_command(label="Run Script", ...) *)

Definition dispatch (a : action) (arrived : list Py.value) (alive : bool) : M unit :=
  match a with
  | RunScriptButton =>
      fun g =>
        match buttons g go_button with
        | normal => go arrived alive g
        | disabled => (inr tt, g)
        end
  | ControlR => go arrived alive
  | RunScriptMenu => go arrived alive
  end.

(** [commit_option_update(check_type)] *)
Definition commit_option_update (check_type : string) : M unit :=
  blank <- checked commit_blank ;;
  check <- checked commit_check_button ;;
  confirmed <- checked commit_confirmed_button ;;
  at_on <- checked commit_at ;;
  comment <- checked commit_comment ;;
  synch <- checked commit_synch ;;
  if String.eqb check_type "blank" && blank then
    deselect commit_confirmed_button ;;
    deselect commit_check_button
  else if String.eqb check_type "check" && check then
    deselect commit_confirmed_button ;;
    deselect commit_blank ;;
    deselect commit_at ;;
    deselect commit_synch ;;
    deselect commit_comment
  else if String.eqb check_type "confirmed" && confirmed then
    deselect commit_check_button ;;
    deselect commit_blank ;;
    deselect commit_at
  else if String.eqb check_type "at" && at_on then
    deselect commit_confirmed_button ;;
    deselect commit_blank ;;
    deselect commit_check_button
  else if String.eqb check_type "comment" && comment then
    deselect commit_check_button
  else if String.eqb check_type "synchronize" && synch then
    deselect commit_check_button
  else ret tt.

(** The commit check boxes and the [check_type] their command passes. *)
Definition commit_boxes : list (widget * string) :=
  [(commit_check_button, "check"); (commit_blank, "blank");
   (commit_confirmed_button, "confirmed"); (commit_synch, "synchronize");
   (commit_comment, "comment"); (commit_at, "at")].

(** A click on a check box: Tk flips the box, then calls its command. *)
Definition click (box : widget * string) : M unit :=
  on <- checked (fst box) ;;
  (if on then deselect (fst box) else select (fst box)) ;;
  commit_option_update (snd box).

(** [opt_select(opt)].  The calls that place or forget a widget on the grid
    change no value and are left out, as are [time.sleep] and [update]. *)
Definition opt_select (opt : string) : M unit :=
  (if negb (String.eqb opt "Set Command(s)") then
     deselect commit_check_button ;;
     deselect commit_confirmed_button ;;
     deselect commit_blank ;;
     deselect commit_synch ;;
     deselect commit_at ;;
     deselect commit_comment
   else ret tt) ;;
  (if String.eqb opt "------" then set option_value "Device Info" else ret tt) ;;
  help <- getitem help_conversion opt ;;
  set help_value help.

(** [check_wtf()]: it only places or forgets widgets on the grid. *)
Definition check_wtf : M unit :=
  _ <- checked wtf_checkbox ;;
  ret tt.

(** [open(path, "rb")]: the content the handle will read. *)
Definition open_rb (path : string) : M string :=
  fun g =>
    match files g path with
    | inl err => (inl (Py.IOError err), g)
    | inr content => (inr content, g)
    end.

(** [open(path, "wb")]: the file is created or emptied; the handle is the path. *)
Definition open_wb (path : string) : M string :=
  fun g =>
    match write_error g path with
    | Some err => (inl (Py.IOError err), g)
    | None => (inr path, with_files (upd_file (files g) path (inr EmptyString)) g)
    end.

(** [handle.write(text)] *)
Definition file_write (handle text : string) : M unit :=
  fun g =>
    let old := match files g handle with inr content => content | inl _ => EmptyString end in
    (inr tt, with_files (upd_file (files g) handle (inr (old ++ text))) g).

(** [handle.close()] *)
Definition file_close (handle : string) : M unit := ret tt.

(** [str(handle)], without the address of the object. *)
Definition str_file (handle : string) : string :=
  "<open file " ++ Py.repr handle ++ ", mode 'wb'>".

(** [save_template(filepath, filetype)].  [items] is the order in which
    [template_opts.iteritems()] yields the dictionary. *)
Definition save_template (items : list (string * widget)) (filepath filetype : string)
  : M unit :=
  (* the local [output_file] is bound by the assignment in the [try] only *)
  try_except_else
    (open_wb filepath)
    (fun e =>
       match e with
       | Py.IOError _ =>
           Some (output_file <- read_local "output_file" (@None string) ;;
                 write_to_output_area
                   (Py.VStr ("Couldn't open file to save the " ++ filetype ++
                             " file. Attempted location: " ++ str_file output_file ++
                             nl ++ "Error:" ++ nl ++ Py.str_exn e)))
       | _ => None
       end)
    (fun output_file =>
       for_each items
         (fun item =>
            let key := fst item in
            let value := snd item in
            v <- get value ;;
            if String.eqb key "Password"
            then file_write output_file (key ++ separator ++ Base64.b64encode v ++ nl)
            else file_write output_file (key ++ separator ++ v ++ nl)) ;;
       file_close output_file).

(** The body of the loop of [open_template] for one line of the file. *)
Definition apply_line (line : string) : M unit :=
  let line := Py.split separator line in
  name <- index line 0 ;;
  if String.eqb name "SingleOrMultipleFiles" then
    w <- getitem template_opts name ;;
    v <- index line 1 ;;
    set w (Py.rstrip v)
  else if String.eqb name "Password" then
    v <- index line 1 ;;
    secret <- lift (Base64.b64decode (Py.rstrip v)) ;;
    set password_entry secret
  else
    w <- getitem template_opts name ;;
    v <- index line 1 ;;
    set w (Py.rstrip v).

(** [open_template(filepath, filetype)] *)
Definition open_template (filepath filetype : string) : M unit :=
  try_except_else
    (open_rb filepath)
    (fun e =>
       match e with
       | Py.IOError _ =>
           Some (write_to_output_area
                   (Py.VStr ("Couldn't open " ++ filetype ++ " file to " ++
                             "import values. Attempted file: " ++ filepath ++
                             " Error: " ++ nl ++ Py.str_exn e)))
       | _ => None
       end)
    (fun input_file =>
       try_finally
         (try_except
            (for_each (Py.readlines input_file) apply_line ;;
             opt <- get option_value ;;
             opt_select opt ;;
             check_wtf)
            (fun e =>
               Some (write_to_output_area
                       (Py.VStr ("Could not open template. Error:" ++ nl ++ Py.str_exn e)))))
         (file_close filepath)).

End JaideGUI.

(** ** A concrete interpreter and a concrete window

    An interpreter in which two [str] objects of equal value are the same
    object, and the window as [__init__] leaves it, with the fields a run
    needs filled in. *)

Definition shared_strings : string -> string -> bool := String.eqb.

(** An interpreter in which no two [str] objects met by the identity test
    are the same object. *)
Definition fresh_strings : string -> string -> bool := fun _ _ => false.

Definition one_per_comma (s : string) : list string := Py.split "," s.

(** The help text [__init__] leaves: it ends with
    [opt_select(option_value.get())] for the operation Diff Config. *)
Definition init_help : string :=
  match lookup "Diff Config" help_conversion with
  | Some help => help
  | None => EmptyString
  end.

Definition init_values (w : widget) : string :=
  match w with
  | help_value => init_help
  | timeout_entry => "300"
  | conn_timeout_entry => "5"
  | port_entry => "22"
  | option_value => "Diff Config"
  | scp_direction_value => "Push"
  | commit_confirmed_min_entry => "[1-60]"
  | commit_at_entry => "[yyyy-mm-dd ]hh:mm[:ss]"
  | diff_config_mode => "Set"
  | wtf_checkbox | format_box | commit_check_button | commit_blank
  | commit_confirmed_button | commit_synch | commit_comment | commit_at => "0"
  | wtf_radiobuttons => "s"
  | _ => EmptyString
  end.

Definition init_buttons (b : button) : button_state :=
  match b with
  | go_button => normal
  | _ => disabled
  end.

Definition init_gui : gui :=
  {| values := init_values;
     buttons := init_buttons;
     stdout_queue := [];
     thread := None;
     files := fun _ => inl "[Errno 2] No such file or directory";
     write_error := fun _ => None;
     trace := [] |}.

(** The window with an address, a user and a password typed in, and an
    operation chosen that needs no further input. *)
Definition ready_values : widget -> string :=
  upd (upd (upd (upd init_values ip_entry "10.0.0.1") username_entry "admin")
         password_entry "sw0rdfish") option_value "Device Info".

Definition ready_gui : gui := with_values ready_values init_gui.

(** The same window where no file can be opened for writing. *)
Definition read_only_gui : gui :=
  {| values := ready_values;
     buttons := init_buttons;
     stdout_queue := [];
     thread := None;
     files := fun _ => inl "[Errno 2] No such file or directory";
     write_error := fun _ => Some "[Errno 13] Permission denied";
     trace := [] |}.

(** The window of [ready_gui] set up for a confirmed commit. *)
Definition commit_gui : gui :=
  with_values
    (upd (upd (upd (upd ready_values option_value "Set Command(s)")
                 option_entry "set system host-name r1")
            commit_confirmed_button "1")
       commit_confirmed_min_entry "5")
    init_gui.

(** The window of [commit_gui] with Synchronize and Comment checked as
    well, and a comment typed in. *)
Definition commented_commit_gui : gui :=
  with_values
    (upd (upd (upd (values commit_gui) commit_synch "1") commit_comment "1")
       commit_comment_entry "rename r1")
    init_gui.

(** A window set up for a check of the commit only. *)
Definition check_only_gui : gui :=
  with_values
    (upd (upd (upd ready_values option_value "Set Command(s)")
            option_entry "set system host-name r1")
       commit_check_button "1")
    init_gui.

(** The window of [ready_gui] after a click on Run Script, with the worker
    still alive at the first tick. *)
Definition running_gui : gui :=
  snd (dispatch shared_strings one_per_comma RunScriptButton [] true ready_gui).

(** ** Notions the properties are stated with *)

(** [isinstance(v, basestring)] *)
Definition is_string (v : Py.value) : bool :=
  match v with
  | Py.VStr _ => true
  | _ => false
  end.

Definition ends_with_newline (s : string) : bool :=
  String.eqb (Py.last_slice s) nl.

(** What rendering one chunk adds to the trace. *)
Definition render (same_object : string -> string -> bool) (c : Py.value) : list event :=
  match c with
  | Py.VStr s => [Insert (with_newline same_object s)]
  | _ => []
  end.

(** The buttons as the last tick of a run configures them. *)
Definition terminal_buttons : list event :=
  [Configure go_button normal; Configure clear_button normal;
   Configure stop_button disabled; Configure save_button normal].

Definition terminal_state (f : button -> button_state) : button -> button_state :=
  upd_button
    (upd_button (upd_button (upd_button f go_button normal) clear_button normal)
       stop_button disabled)
    save_button normal.

(** The ticks of one run.  [after] makes the main loop call [get_output]
    again as long as a tick finds the worker alive; [ticks] are the chunks
    that arrive during each of these ticks, [last] those that arrive
    during the tick that finds the worker dead. *)
Fixpoint poll (same_object : string -> string -> bool)
    (ticks : list (list Py.value)) (last : list Py.value) : M unit :=
  match ticks with
  | [] => get_output same_object last false
  | arrived :: ticks' =>
      get_output same_object arrived true ;; poll same_object ticks' last
  end.

(** The number of worker threads started and not yet joined. *)
Fixpoint in_flight (t : list event) : Z :=
  match t with
  | [] => 0
  | Start _ :: t' => in_flight t' + 1
  | Join :: t' => in_flight t' - 1
  | _ :: t' => in_flight t'
  end.

(** A check box is selected. *)
Definition is_on (g : gui) (w : widget) : bool := String.eqb (values g w) "1".

(** None of Blank, Confirmed, At Time, Synchronize and Comment is selected. *)
Definition others_off (g : gui) : bool :=
  negb (is_on g commit_blank || is_on g commit_confirmed_button ||
        is_on g commit_at || is_on g commit_synch || is_on g commit_comment).

(** Check Only is not selected together with any of the five others. *)
Definition exclusive (g : gui) : bool :=
  negb (is_on g commit_check_button) || others_off g.

(** The argument bundle of Set Command(s), up to its confirmed entry. *)
Definition commit_bundle (g : gui) (confirmed : Py.value) : list Py.value :=
  [Py.VStr (Py.strip (values g option_entry));
   flag (is_on g commit_check_button);
   flag (is_on g commit_synch);
   (if is_on g commit_comment then Py.VStr (values g commit_comment_entry) else Py.VNone);
   confirmed;
   (if is_on g commit_at then Py.VStr (values g commit_at_entry) else Py.VNone);
   flag (is_on g commit_blank)].

(** The text [open_template] reports when it cannot open the file. *)
Definition read_failure_notice (filetype filepath err : string) : string :=
  "Couldn't open " ++ filetype ++ " file to import values. Attempted file: " ++
  filepath ++ " Error: " ++ nl ++ err.

(** The content of a file made of the given lines. *)
Definition join (lines : list string) : string :=
  fold_right append EmptyString lines.

(** The text [save_template] puts behind the separator for one item. *)
Definition template_text (g : gui) (item : string * widget) : string :=
  if String.eqb (fst item) "Password"
  then Base64.b64encode (values g (snd item))
  else values g (snd item).

(** The line [save_template] writes for one item. *)
Definition template_line (g : gui) (item : string * widget) : string :=
  fst item ++ separator ++ template_text g item ++ nl.

(** A value that a template line gives back as it is: it has no line feed,
    does not contain the separator and does not end with whitespace. *)
Definition storable (v : string) : bool :=
  negb (Py.mem_char "010"%char v) && negb (Py.contains separator v) &&
  String.eqb (Py.rstrip v) v.

(** What one line of a template asks for: the line is split at the
    separator, the first field names the widget, the second one, without
    its trailing whitespace, is the value, and the secret is decoded.  A
    line that asks for nothing gives the exception it raises. *)
Definition parse_line (line : string) : Py.exn + (widget * string) :=
  match Py.split separator line with
  | [] => inl Py.IndexError
  | name :: fields =>
      if String.eqb name "Password" then
        match fields with
        | [] => inl Py.IndexError
        | text :: _ =>
            match Base64.b64decode (Py.rstrip text) with
            | inl e => inl e
            | inr secret => inr (password_entry, secret)
            end
        end
      else
        match lookup name template_opts, fields with
        | None, _ => inl (Py.KeyError name)
        | Some _, [] => inl Py.IndexError
        | Some w, text :: _ => inr (w, Py.rstrip text)
        end
  end.

(** The widget values after the lines that parse have been applied in order. *)
Definition applied (lines : list string) (f : widget -> string) : widget -> string :=
  fold_left
    (fun f line =>
       match parse_line line with
       | inr (w, v) => upd f w v
       | inl _ => f
       end)
    lines f.

(** The text [open_template] reports when a line cannot be applied. *)
Definition parse_failure_notice (e : Py.exn) : string :=
  "Could not open template. Error:" ++ nl ++ Py.str_exn e.

(** The six commit check boxes. *)
Definition commit_widgets : list widget := map fst commit_boxes.

Definition is_commit_widget (w : widget) : bool :=
  existsb (fun x => if widget_eq_dec w x then true else false) commit_widgets.

(** The byte is neither whitespace nor a colon. *)
Definition plain (c : ascii) : bool :=
  negb (Py.is_space c) && negb (Ascii.eqb c ":"%char).

Fixpoint all_chars (P : ascii -> bool) (s : string) : bool :=
  match s with
  | EmptyString => true
  | String c s' => P c && all_chars P s'
  end.

(** The window after a template saved from [g] has been loaded again, the
    widgets holding [others] at the time of loading. *)
Definition reloaded (same_object : string -> string -> bool)
    (items : list (string * widget)) (path filetype : string)
    (others : widget -> string) (g : gui) : gui :=
  snd (open_template same_object path filetype
         (with_values others (snd (save_template same_object items path filetype g)))).

(** A window whose template file has the given content. *)
Definition gui_with_file (path content : string) (g : gui) : gui :=
  with_files (upd_file (files g) path (inr content)) g.

(** A template with one malformed line in front of four well-formed ones. *)
Definition broken_template : string :=
  "this line has no separator" ++ nl ++
  "IP:~:10.0.0.1" ++ nl ++
  "Username:~:admin" ++ nl ++
  "Timeout:~:60" ++ nl ++
  "SCPDest:~:/var/tmp" ++ nl.

(** The four well-formed lines of [broken_template]. *)
Definition four_lines : list string :=
  ["IP:~:10.0.0.1" ++ nl; "Username:~:admin" ++ nl; "Timeout:~:60" ++ nl;
   "SCPDest:~:/var/tmp" ++ nl].

(** A template with four well-formed lines, then a line that names no
    field of the window, then one more well-formed line. *)
Definition stale_template : string :=
  join four_lines ++ "Colour:~:blue" ++ nl ++ "SCPDirection:~:Pull" ++ nl.

(** The values of the fresh window with the four lines applied. *)
Definition four_values : widget -> string :=
  upd (upd (upd (upd init_values ip_entry "10.0.0.1") username_entry "admin")
         timeout_entry "60") scp_dest_entry "/var/tmp".

(** The window of [ready_gui] with a command that ends in a blank. *)
Definition trailing_blank_gui : gui :=
  with_values
    (upd (upd ready_values option_value "Operational Command(s)")
       option_entry "show version ")
    init_gui.

(** A test on both booleans, and on every byte. *)
Definition both (P : bool -> bool) : bool := P true && P false.

Definition all_ascii (P : ascii -> bool) : bool :=
  both (fun b0 => both (fun b1 => both (fun b2 => both (fun b3 =>
  both (fun b4 => both (fun b5 => both (fun b6 => both (fun b7 =>
    P (Ascii b0 b1 b2 b3 b4 b5 b6 b7))))))))).

(** Equality tests the exhaustive checks of the Base64 facts use. *)
Definition class_eqb (x y : Base64.b64class) : bool :=
  match x, y with
  | Base64.Skip, Base64.Skip | Base64.Pad, Base64.Pad => true
  | Base64.Val v, Base64.Val w => N.eqb v w
  | _, _ => false
  end.

Definition step_eqb (x y : option ascii * N * N) : bool :=
  match x, y with
  | (Some a, l, n), (Some b, l', n') => Ascii.eqb a b && N.eqb l l' && N.eqb n n'
  | (None, l, n), (None, l', n') => N.eqb l l' && N.eqb n n'
  | _, _ => false
  end.

(** ** More methods of [JaideGUI] *)

(** Modelled from the spec: [JaideEntry] is not part of the sources; on the
    cell of an entry [delete(0, tk.END)] leaves the empty text and
    [insert(0, text)] puts [text] in front of what is there, as the Tk
    entry does. *)
Definition delete_all (w : widget) : M unit := set w EmptyString.

Definition insert_front (w : widget) (text : string) : M unit :=
  v <- get w ;;
  set w (text ++ v).

(** [clear_fields(event)] *)
Definition clear_fields : M unit :=
  delete_all ip_entry ;;
  delete_all timeout_entry ;;
  insert_front timeout_entry "300" ;;
  delete_all username_entry ;;
  delete_all password_entry ;;
  delete_all wtf_entry ;;
  deselect wtf_checkbox ;;
  delete_all option_entry ;;
  delete_all option_entry ;;
  delete_all scp_dest_entry ;;
  delete_all commit_comment_entry ;;
  delete_all commit_at_entry ;;
  deselect commit_check_button ;;
  deselect commit_confirmed_button ;;
  deselect commit_blank ;;
  deselect commit_synch ;;
  deselect commit_at ;;
  deselect commit_comment.

(** [save_output()], for the path [return_file] the dialog answers, empty
    on Cancel, and the text [shown] that [output_area.get(1.0, tk.END)]
    gives.  [open(path, "w+b")] creates or empties the file as
    [open(path, "wb")] does. *)
Definition save_output (return_file shown : string) : M unit :=
  if String.eqb return_file "" then ret tt
  else
    try_except_else
      (open_wb return_file)
      (fun e =>
         match e with
         | Py.IOError _ =>
             Some (emit (ShowInfo "Couldn't open file."
                           "The file you specified could not be opened."))
         | _ => None
         end)
      (fun outFile =>
         file_write outFile shown ;;
         file_close outFile).

(** ** Notions for the further properties *)

Definition start_notice : string := "****** Starting Jaide ******" ++ nl.

(** The function [go] hands to the worker: a pull replaces a push. *)
Definition chosen_function (g : gui) (function : wrap) : wrap :=
  if String.eqb (values g scp_direction_value) "Pull" && wrap_eqb function wrap_push
  then wrap_pull else function.

(** The worker [go] builds for the function looked up and the bundle chosen. *)
Definition worker_of (g : gui) (function : wrap) (args : list Py.value) : WorkerThread :=
  {| argsToPass := args;
     sess_timeout := values g timeout_entry;
     conn_timeout := values g conn_timeout_entry;
     port := values g port_entry;
     command := chosen_function g function;
     ip := values g ip_entry;
     username := Py.strip (values g username_entry);
     password := Py.strip (values g password_entry);
     write_to_file := if is_on g wtf_checkbox then values g wtf_entry else EmptyString;
     wtf_style := values g wtf_radiobuttons |}.

(** The dictionary [args_translation] of [go]: the bundle of every
    operation, for the window [g], the number of hosts [clean_lines]
    finds and the commit options [comment], [confirmed] and [at_time]. *)
Definition args_translation (clean_lines : string -> list string) (g : gui)
    (comment confirmed at_time : Py.value) : list (string * list Py.value) :=
  let arg := Py.VStr (Py.strip (values g option_entry)) in
  [("Operational Command(s)",
    [arg; Py.VStr (if is_on g format_box then "xml" else "text"); Py.VBool false]);
   ("Device Info", []);
   ("Diff Config", [arg; Py.VStr (Py.lower (values g diff_config_mode))]);
   ("Health Check", []);
   ("Interface Errors", []);
   ("Set Command(s)",
    [arg; flag (is_on g commit_check_button); flag (is_on g commit_synch);
     comment; confirmed; at_time; flag (is_on g commit_blank)]);
   ("SCP Files",
    [arg; Py.VStr (values g scp_dest_entry); Py.VBool false;
     Py.VBool (Nat.ltb 1 (List.length (clean_lines (values g ip_entry))))]);
   ("Shell Command(s)", [arg]);
   ("Show | Compare", [arg])].

(** A commit option that is passed only when its box is checked. *)
Definition optional_text (g : gui) (box entry : widget) : Py.value :=
  if is_on g box then Py.VStr (values g entry) else Py.VNone.

(** The buttons while a script runs. *)
Definition running_state (f : button -> button_state) : button -> button_state :=
  upd_button
    (upd_button (upd_button (upd_button f go_button disabled) clear_button disabled)
       stop_button normal)
    save_button disabled.

Definition running_buttons : list event :=
  [Configure go_button disabled; Configure clear_button disabled;
   Configure stop_button normal; Configure save_button disabled].

(** The window when [go] has started the worker [w] and is about to poll. *)
Definition started (same_object : string -> string -> bool) (g : gui) (w : WorkerThread)
  : gui :=
  {| values := values g;
     buttons := running_state (buttons g);
     stdout_queue := stdout_queue g;
     thread := Some w;
     files := files g;
     write_error := write_error g;
     trace := trace g ++ [MarkSetEnd] ++ render same_object (Py.VStr start_notice)
                ++ [Start w] ++ running_buttons |}.

(** Confirmed is not selected together with Blank or At Time. *)
Definition confirmed_alone (g : gui) : bool :=
  negb (is_on g commit_confirmed_button) ||
  negb (is_on g commit_blank || is_on g commit_at).

(** One run from the click to the end: [go] does the first tick itself,
    the main loop the later ones. *)
Definition run (same_object : string -> string -> bool)
    (clean_lines : string -> list string)
    (ticks : list (list Py.value)) (last : list Py.value) : M unit :=
  match ticks with
  | [] => go same_object clean_lines last false
  | first :: ticks' =>
      go same_object clean_lines first true ;; poll same_object ticks' last
  end.

(** ** Windows and templates the further properties are shown at *)


(** A window set up for a commit at a time that no clock shows. *)
Definition at_time_gui : gui :=
  with_values
    (upd (upd (upd (upd ready_values option_value "Set Command(s)")
                 option_entry "set system host-name r1")
            commit_at "1")
       commit_at_entry "25:00")
    init_gui.

(** A window set up for a confirmed commit of ninety minutes. *)
Definition long_confirm_gui : gui :=
  with_values (upd (values commit_gui) commit_confirmed_min_entry "90") init_gui.

(** A template that checks the Confirmed Minutes box and then breaks off. *)
Definition half_loaded_template : string :=
  "CommitConfirmed:~:1" ++ nl ++ "this line has no separator" ++ nl.

(** The window of [ready_gui] after that template has been opened. *)
Definition half_loaded_gui : gui :=
  snd (open_template shared_strings "router.tpl" "template"
         (gui_with_file "router.tpl" half_loaded_template ready_gui)).

(** A template that names an operation the menu does not have. *)
Definition unknown_operation_template : string :=
  "IP:~:10.0.0.1" ++ nl ++ "Option:~:Reboot" ++ nl.

(** A template with two lines for the address. *)
Definition twice_template : string :=
  "IP:~:10.0.0.1" ++ nl ++ "Username:~:admin" ++ nl ++ "IP:~:10.0.0.2" ++ nl.

(** * Properties *)

(** ** Running statements *)

Lemma bind_inr {A B : Type} (c : M A) (k : A -> M B) (g g' : gui) (a : A) :
  c g = (inr a, g') -> bind c k g = k a g'.
Proof. intros H. unfold bind. now rewrite H. Qed.

Lemma bind_inl {A B : Type} (c : M A) (k : A -> M B) (g g' : gui) (e : Py.exn) :
  c g = (inl e, g') -> bind c k g = (inl e, g').
Proof. intros H. unfold bind. now rewrite H. Qed.

Lemma bind_bind {A B C : Type} (c : M A) (k : A -> M B) (h : B -> M C) (g : gui) :
  bind (bind c k) h g = bind c (fun a => bind (k a) h) g.
Proof. unfold bind. destruct (c g) as [[e|a] g']; reflexivity. Qed.

(** Reduce the state to a record of fields. *)
Ltac norm_state :=
  unfold with_values, with_buttons, with_queue, with_thread, with_files, with_trace;
  cbn [values buttons stdout_queue thread files write_error trace].

Ltac step_with lem := erewrite bind_inr by apply lem; norm_state.

Ltac step := erewrite bind_inr by reflexivity; norm_state.

Lemma with_trace_same (g : gui) : with_trace (trace g) g = g.
Proof. destruct g; reflexivity. Qed.

Lemma with_values_same (g : gui) : with_values (values g) g = g.
Proof. destruct g; reflexivity. Qed.

(** ** Strings *)

Lemma append_assoc (a b c : string) : (a ++ b) ++ c = a ++ (b ++ c).
Proof. induction a as [|x a IH]; cbn; [reflexivity | now rewrite IH]. Qed.

Lemma append_nil_r (a : string) : a ++ EmptyString = a.
Proof. induction a as [|x a IH]; cbn; [reflexivity | now rewrite IH]. Qed.

Lemma mem_char_append (c : ascii) (a b : string) :
  Py.mem_char c (a ++ b) = Py.mem_char c a || Py.mem_char c b.
Proof.
  induction a as [|x a IH]; cbn; [reflexivity|].
  now rewrite IH, orb_assoc.
Qed.

(** A line without a line feed, then a line feed, is one line of the file. *)
Lemma readlines_from_line (body : string) :
  forall cur rest,
    Py.mem_char "010"%char body = false ->
    Py.readlines_from cur (body ++ nl ++ rest)
    = (cur ++ body ++ nl) :: Py.readlines_from EmptyString rest.
Proof.
  induction body as [|x body IH]; intros cur rest H.
  - reflexivity.
  - cbn [Py.mem_char] in H. apply orb_false_iff in H. destruct H as [Hx Hb].
    cbn [append Py.readlines_from].
    rewrite Ascii.eqb_sym, Hx. rewrite IH by exact Hb.
    now rewrite append_assoc.
Qed.

(** A text without the separator is one field. *)
Lemma split_from_no_separator (sep s : string) :
  forall cur,
    Py.contains sep s = false ->
    Py.split_from sep 0 cur s = [cur ++ s].
Proof.
  induction s as [|x s IH]; intros cur H.
  - cbn [Py.split_from]. now rewrite append_nil_r.
  - cbn [Py.contains] in H. apply orb_false_iff in H. destruct H as [Hp Hs].
    cbn [Py.split_from]. rewrite Hp, IH by exact Hs.
    now rewrite append_assoc.
Qed.

(** A name without a colon in front of the separator is the first field. *)
Lemma split_from_name (name : string) :
  forall cur rest,
    Py.mem_char ":"%char name = false ->
    Py.split_from separator 0 cur (name ++ separator ++ rest)
    = (cur ++ name) :: Py.split_from separator 0 EmptyString rest.
Proof.
  induction name as [|x name IH]; intros cur rest H.
  - rewrite append_nil_r. destruct rest; reflexivity.
  - cbn [Py.mem_char] in H. apply orb_false_iff in H. destruct H as [Hx Hn].
    change (String x name ++ separator ++ rest)
      with (String x (name ++ separator ++ rest)).
    assert (Hp : String.prefix separator (String x (name ++ separator ++ rest)) = false).
    { unfold separator at 1. cbn [String.prefix].
      destruct (ascii_dec ":" x) as [E|_]; [|reflexivity].
      subst x. discriminate Hx. }
    cbn [Py.split_from]. rewrite Hp, IH by exact Hn.
    now rewrite append_assoc.
Qed.

Lemma prefix_separator_line (s : string) :
  String.prefix separator (s ++ nl) = String.prefix separator s.
Proof.
  unfold separator.
  destruct s as [|a [|b [|c s]]]; cbn;
    repeat match goal with
           | |- context [ascii_dec ?x ?y] => destruct (ascii_dec x y)
           end; try reflexivity; try discriminate.
  - destruct s; reflexivity.
Qed.

Lemma contains_separator_line (s : string) :
  Py.contains separator (s ++ nl) = Py.contains separator s.
Proof.
  induction s as [|x s IH].
  - reflexivity.
  - cbn [append Py.contains].
    change (String x (s ++ nl)) with (String x s ++ nl).
    now rewrite prefix_separator_line, IH.
Qed.

Lemma rstrip_line (s : string) : Py.rstrip (s ++ nl) = Py.rstrip s.
Proof.
  induction s as [|x s IH]; [reflexivity|].
  cbn [append Py.rstrip]. now rewrite IH.
Qed.

(** A line [name:~:text] of a template splits into its name and the text
    with the line feed. *)
Lemma split_template_line (name text : string) :
  Py.mem_char ":"%char name = false ->
  Py.contains separator text = false ->
  Py.split separator (name ++ separator ++ text ++ nl) = [name; text ++ nl].
Proof.
  intros Hn Ht. unfold Py.split.
  rewrite split_from_name by exact Hn.
  rewrite split_from_no_separator by (now rewrite contains_separator_line).
  reflexivity.
Qed.

(** ** Base64

    Facts about all bytes are decided by running a test on each of them. *)



Lemma both_spec (P : bool -> bool) : both P = true -> forall b, P b = true.
Proof.
  unfold both. intros H b. apply andb_true_iff in H. destruct b; tauto.
Qed.

Lemma all_ascii_spec (P : ascii -> bool) :
  all_ascii P = true -> forall a, P a = true.
Proof.
  intros H [b0 b1 b2 b3 b4 b5 b6 b7]. unfold all_ascii in H.
  apply (both_spec _ (both_spec _ (both_spec _ (both_spec _
          (both_spec _ (both_spec _ (both_spec _ (both_spec _ H b0) b1) b2) b3)
             b4) b5) b6) b7).
Qed.

Module Base64Facts.

Import Base64.


Lemma class_eqb_eq (x y : b64class) : class_eqb x y = true -> x = y.
Proof.
  destruct x, y; cbn; try discriminate; try reflexivity.
  intros H. apply N.eqb_eq in H. now subst.
Qed.


Lemma step_eqb_eq (x y : option ascii * N * N) : step_eqb x y = true -> x = y.
Proof.
  destruct x as [[[a|] l] n], y as [[[b|] l'] n']; cbn; try discriminate; intros H.
  - apply andb_true_iff in H. destruct H as [H Hn].
    apply andb_true_iff in H. destruct H as [Ha Hl].
    apply Ascii.eqb_eq in Ha. apply N.eqb_eq in Hl. apply N.eqb_eq in Hn.
    now subst.
  - apply andb_true_iff in H. destruct H as [Hl Hn].
    apply N.eqb_eq in Hl. apply N.eqb_eq in Hn. now subst.
Qed.

(** A character of the encoding decodes to the group it stands for. *)
Lemma classify_g1 (a : ascii) : classify (b2a (g1 a)) = Val (g1 a).
Proof.
  apply class_eqb_eq. revert a. apply all_ascii_spec. vm_compute. reflexivity.
Qed.

Lemma classify_g2 (a b : ascii) : classify (b2a (g2 a b)) = Val (g2 a b).
Proof.
  apply class_eqb_eq. revert b. apply all_ascii_spec. revert a.
  apply (all_ascii_spec (fun a => all_ascii (fun b =>
           class_eqb (classify (b2a (g2 a b))) (Val (g2 a b))))).
  vm_compute. reflexivity.
Qed.

Lemma classify_g3 (b c : ascii) : classify (b2a (g3 b c)) = Val (g3 b c).
Proof.
  apply class_eqb_eq. revert c. apply all_ascii_spec. revert b.
  apply (all_ascii_spec (fun b => all_ascii (fun c =>
           class_eqb (classify (b2a (g3 b c))) (Val (g3 b c))))).
  vm_compute. reflexivity.
Qed.

Lemma classify_g4 (c : ascii) : classify (b2a (g4 c)) = Val (g4 c).
Proof.
  apply class_eqb_eq. revert c. apply all_ascii_spec. vm_compute. reflexivity.
Qed.

(** The decoder's registers while it passes over one group. *)
Lemma shift_in_g1 (a : ascii) : shift_in 0 0 (g1 a) = (None, g1 a, 6%N).
Proof.
  apply step_eqb_eq. revert a. apply all_ascii_spec. vm_compute. reflexivity.
Qed.

Lemma shift_in_g2 (a b : ascii) :
  shift_in (g1 a) 6 (g2 a b) = (Some a, N.shiftr (byte b) 4, 4%N).
Proof.
  apply step_eqb_eq. revert b. apply all_ascii_spec. revert a.
  apply (all_ascii_spec (fun a => all_ascii (fun b =>
           step_eqb (shift_in (g1 a) 6 (g2 a b)) (Some a, N.shiftr (byte b) 4, 4%N)))).
  vm_compute. reflexivity.
Qed.

Lemma shift_in_g3 (b c : ascii) :
  shift_in (N.shiftr (byte b) 4) 4 (g3 b c) = (Some b, N.shiftr (byte c) 6, 2%N).
Proof.
  apply step_eqb_eq. revert c. apply all_ascii_spec. revert b.
  apply (all_ascii_spec (fun b => all_ascii (fun c =>
           step_eqb (shift_in (N.shiftr (byte b) 4) 4 (g3 b c))
             (Some b, N.shiftr (byte c) 6, 2%N)))).
  vm_compute. reflexivity.
Qed.

Lemma shift_in_g4 (c : ascii) :
  shift_in (N.shiftr (byte c) 6) 2 (g4 c) = (Some c, 0%N, 0%N).
Proof.
  apply step_eqb_eq. revert c. apply all_ascii_spec. vm_compute. reflexivity.
Qed.

Lemma classify_tail2 (a : ascii) : classify (b2a (tail2 a)) = Val (tail2 a).
Proof.
  apply class_eqb_eq. revert a. apply all_ascii_spec. vm_compute. reflexivity.
Qed.

Lemma classify_tail3 (b : ascii) : classify (b2a (tail3 b)) = Val (tail3 b).
Proof.
  apply class_eqb_eq. revert b. apply all_ascii_spec. vm_compute. reflexivity.
Qed.

Lemma shift_in_tail2 (a : ascii) : shift_in (g1 a) 6 (tail2 a) = (Some a, 0%N, 4%N).
Proof.
  apply step_eqb_eq. revert a. apply all_ascii_spec. vm_compute. reflexivity.
Qed.

Lemma shift_in_tail3 (b : ascii) :
  shift_in (N.shiftr (byte b) 4) 4 (tail3 b) = (Some b, 0%N, 2%N).
Proof.
  apply step_eqb_eq. revert b. apply all_ascii_spec. vm_compute. reflexivity.
Qed.

(** Induction over a string three characters at a time. *)
Lemma string_ind3 (P : string -> Prop) :
  P EmptyString ->
  (forall a, P (String a EmptyString)) ->
  (forall a b, P (String a (String b EmptyString))) ->
  (forall a b c rest, P rest -> P (String a (String b (String c rest)))) ->
  forall s, P s.
Proof.
  intros H0 H1 H2 H3.
  assert (H : forall s, P s /\ (forall a, P (String a s))
                        /\ (forall a b, P (String a (String b s)))).
  { induction s as [|c s [IH0 [IH1 IH2]]].
    - auto.
    - repeat split; auto. }
  intros s. apply H.
Qed.

(** Decoding gives back what was encoded. *)
Lemma a2b_base64_b64encode (s : string) : a2b_base64 (b64encode s) = Some s.
Proof.
  unfold a2b_base64. induction s as [|a|a b|a b c rest IH] using string_ind3.
  - reflexivity.
  - cbn [b64encode a2b_loop].
    rewrite classify_g1, shift_in_g1. cbn [emit_byte a2b_loop N.add N.land].
    rewrite classify_tail2, shift_in_tail2.
    reflexivity.
  - cbn [b64encode a2b_loop].
    rewrite classify_g1, shift_in_g1. cbn [emit_byte a2b_loop].
    rewrite classify_g2, shift_in_g2. cbn [emit_byte a2b_loop].
    rewrite classify_tail3, shift_in_tail3.
    reflexivity.
  - cbn [b64encode a2b_loop].
    rewrite classify_g1, shift_in_g1. cbn [emit_byte a2b_loop].
    rewrite classify_g2, shift_in_g2. cbn [emit_byte a2b_loop].
    rewrite classify_g3, shift_in_g3. cbn [emit_byte a2b_loop].
    rewrite classify_g4, shift_in_g4.
    change (N.land (N.land (N.land (N.land (0 + 1) 3 + 1) 3 + 1) 3 + 1) 3) with 0%N.
    rewrite IH. reflexivity.
Qed.

Lemma b64decode_b64encode (s : string) : b64decode (b64encode s) = inr s.
Proof. unfold b64decode. now rewrite a2b_base64_b64encode. Qed.

End Base64Facts.

(** ** The last character of a string *)

Lemma last_slice_short (s : string) : String.length (Py.last_slice s) <= 1.
Proof.
  induction s as [|c s IH]; cbn; [lia|].
  destruct s; [cbn; lia | exact IH].
Qed.

Lemma last_slice_append_nl (s : string) : Py.last_slice (s ++ nl) = nl.
Proof.
  induction s as [|c s IH]; [reflexivity|].
  cbn [append Py.last_slice]. destruct (s ++ nl) eqn:E.
  - destruct s; discriminate.
  - exact IH.
Qed.

(** ** The output area and the supervisor *)

Section Supervisor.

Variable same_object : string -> string -> bool.
Variable clean_lines : string -> list string.

Lemma write_to_output_area_run (c : Py.value) (g : gui) :
  write_to_output_area same_object c g
  = (inr tt, with_trace (trace g ++ render same_object c) g).
Proof.
  destruct c; cbn [write_to_output_area render];
    try (unfold ret; rewrite app_nil_r, with_trace_same; reflexivity).
  reflexivity.
Qed.

(** Where the interpreter shares the [str] objects of at most one
    character, so that the identity test of the source decides equality
    with the line feed: a string is inserted unchanged when it ends with a
    line feed and with a line feed appended when it does not, so the
    inserted text always ends with one; a value that is not a string
    leaves the window as it is. *)
Lemma shared_strings_single_newline (s : string) (g : gui) :
  (forall a, String.length a <= 1 -> same_object a nl = String.eqb a nl) ->
  (exists text,
      write_to_output_area same_object (Py.VStr s) g
      = (inr tt, with_trace (trace g ++ [Insert text]) g) /\
      text = (if ends_with_newline s then s else s ++ nl) /\
      ends_with_newline text = true) /\
  (forall v, is_string v = false ->
             write_to_output_area same_object v g = (inr tt, g)).
Proof.
  intros Hshare. split.
  - exists (with_newline same_object s). split; [reflexivity|].
    unfold with_newline, ends_with_newline.
    rewrite (Hshare _ (last_slice_short s)).
    destruct (String.eqb (Py.last_slice s) nl) eqn:E; cbn [negb].
    + split; [reflexivity | exact E].
    + split; [reflexivity|]. rewrite last_slice_append_nl. reflexivity.
  - intros v Hv. destruct v; try reflexivity. discriminate.
Qed.

Lemma drain_rounds_run (n : nat) :
  forall g,
    List.length (stdout_queue g) <= n ->
    drain_rounds same_object n g
    = (inr tt,
       with_queue []
         (with_trace (trace g ++ flat_map (render same_object) (stdout_queue g)) g)).
Proof.
  induction n as [|n IH]; intros g Hlen.
  - destruct g as [v b q t f w tr]; cbn in *.
    destruct q; [|cbn in Hlen; lia].
    cbn. unfold ret, with_queue, with_trace; cbn. now rewrite app_nil_r.
  - destruct g as [v b q t f w tr]; destruct q as [|c q].
    + cbn. unfold with_queue, with_trace; cbn. now rewrite app_nil_r.
    + cbn [drain_rounds]. unfold bind at 1. cbn [queue_empty stdout_queue].
      unfold bind at 1. cbn [get_nowait stdout_queue].
      unfold bind at 1. rewrite write_to_output_area_run.
      rewrite IH by (cbn in *; lia).
      unfold with_queue, with_trace; cbn. now rewrite <- app_assoc.
Qed.

Lemma drain_run (g : gui) :
  drain same_object g
  = (inr tt,
     with_queue []
       (with_trace (trace g ++ flat_map (render same_object) (stdout_queue g)) g)).
Proof. unfold drain. now apply drain_rounds_run. Qed.

Lemma first_read_run (g : gui) :
  try_except
    (c <- get_nowait ;; write_to_output_area same_object c)
    (fun e => match e with Py.QueueEmpty => Some (ret tt) | _ => None end) g
  = (inr tt,
     with_queue (tl (stdout_queue g))
       (with_trace
          (trace g ++ flat_map (render same_object) (firstn 1 (stdout_queue g))) g)).
Proof.
  destruct g as [v b q t f w tr]; destruct q as [|c q];
    unfold try_except, try_except_else, bind, get_nowait; cbn.
  - unfold ret, with_queue, with_trace; cbn. now rewrite app_nil_r.
  - rewrite write_to_output_area_run.
    unfold ret, with_queue, with_trace; cbn. now rewrite app_nil_r.
Qed.

Lemma get_output_dead_run (arrived : list Py.value) (g : gui) :
  get_output same_object arrived false g
  = (inr tt,
     {| values := values g;
        buttons := terminal_state (buttons g);
        stdout_queue := [];
        thread := thread g;
        files := files g;
        write_error := write_error g;
        trace := trace g ++ flat_map (render same_object) (stdout_queue g ++ arrived)
                   ++ terminal_buttons
                   ++ render same_object (Py.VStr completed_notice)
                   ++ [Join] |}).
Proof.
  destruct g as [v b q t f w tr]. unfold get_output.
  step_with first_read_run. step. cbn [negb].
  step_with drain_run. do 4 step.
  step_with write_to_output_area_run.
  unfold emit, terminal_state, terminal_buttons. norm_state.
  f_equal. f_equal.
  rewrite flat_map_app. destruct q as [|c q]; cbn [firstn tl flat_map app];
    rewrite ?app_nil_r, <- ?app_assoc; cbn [app]; try reflexivity.
  rewrite flat_map_app, <- ?app_assoc. reflexivity.
Qed.

Lemma get_output_alive_run (arrived : list Py.value) (g : gui) :
  get_output same_object arrived true g
  = (inr tt,
     {| values := values g;
        buttons := buttons g;
        stdout_queue := tl (stdout_queue g) ++ arrived;
        thread := thread g;
        files := files g;
        write_error := write_error g;
        trace := trace g ++ flat_map (render same_object) (firstn 1 (stdout_queue g))
                   ++ [After 100] |}).
Proof.
  destruct g as [v b q t f w tr]. unfold get_output.
  step_with first_read_run. step.
  cbn [negb]. unfold emit. norm_state. now rewrite <- app_assoc.
Qed.

(** C1.  The tick that finds the worker thread dead returns normally with
    an empty queue, and it has rendered every chunk that was queued, those
    that arrived during the tick included, oldest first, before it
    configures the buttons for the end of the run (Run, Clear and Save
    back to normal) and writes the completion notice; it schedules no
    further tick. *)
Theorem final_drain_before_completion (arrived : list Py.value) (g : gui) :
  fst (get_output same_object arrived false g) = inr tt /\
  stdout_queue (snd (get_output same_object arrived false g)) = [] /\
  trace (snd (get_output same_object arrived false g))
  = (trace g ++ flat_map (render same_object) (stdout_queue g ++ arrived)
       ++ terminal_buttons
       ++ render same_object (Py.VStr completed_notice)
       ++ [Join])%list /\
  buttons (snd (get_output same_object arrived false g)) go_button = normal /\
  buttons (snd (get_output same_object arrived false g)) clear_button = normal /\
  buttons (snd (get_output same_object arrived false g)) save_button = normal.
Proof.
  rewrite get_output_dead_run.
  cbn [fst snd trace values buttons stdout_queue thread files write_error].
  repeat split.
Qed.

(** C2, as the code has it.  A tick that finds the worker thread alive
    takes at most one chunk off the queue, the oldest, and renders it;
    every other chunk stays queued, in order, for a later tick; then the
    next tick is scheduled 100 ms ahead. *)
Theorem tick_while_alive_renders_oldest_chunk (arrived : list Py.value) (g : gui) :
  fst (get_output same_object arrived true g) = inr tt /\
  stdout_queue (snd (get_output same_object arrived true g))
  = (tl (stdout_queue g) ++ arrived)%list /\
  trace (snd (get_output same_object arrived true g))
  = (trace g ++ flat_map (render same_object) (firstn 1 (stdout_queue g))
       ++ [After 100])%list /\
  buttons (snd (get_output same_object arrived true g)) = buttons g.
Proof.
  rewrite get_output_alive_run.
  cbn [fst snd trace values buttons stdout_queue thread files write_error].
  repeat split.
Qed.

Lemma inserted_app (t u : list event) :
  inserted (t ++ u) = inserted t ++ inserted u.
Proof.
  induction t as [|e t IH]; [reflexivity|].
  destruct e; cbn [app inserted]; rewrite IH; try reflexivity.
  now rewrite append_assoc.
Qed.

Lemma head_and_tail {A : Type} (q : list A) : (firstn 1 q ++ tl q)%list = q.
Proof. destruct q; reflexivity. Qed.

(** X1.  Over a whole run the output area receives every chunk that was ever
    queued, once and in the order of the queue, and then the completion
    notice; the queue is empty when the run ends. *)
Corollary run_renders_every_chunk_once (ticks : list (list Py.value)) :
  forall (last : list Py.value) (g : gui),
    fst (poll same_object ticks last g) = inr tt /\
    stdout_queue (snd (poll same_object ticks last g)) = [] /\
    inserted (trace (snd (poll same_object ticks last g)))
    = inserted (trace g)
      ++ inserted (flat_map (render same_object)
                     (stdout_queue g ++ List.concat ticks ++ last))
      ++ with_newline same_object completed_notice.
Proof.
  induction ticks as [|arrived ticks IH]; intros last g.
  - cbn [poll List.concat app]. rewrite get_output_dead_run.
    cbn [fst snd stdout_queue trace]. repeat split.
    rewrite !inserted_app. cbn [render inserted terminal_buttons].
    cbn [append]. now rewrite !append_nil_r.
  - cbn [poll]. erewrite bind_inr by apply get_output_alive_run.
    destruct (IH last
                {| values := values g; buttons := buttons g;
                   stdout_queue := tl (stdout_queue g) ++ arrived;
                   thread := thread g; files := files g;
                   write_error := write_error g;
                   trace := trace g
                            ++ flat_map (render same_object) (firstn 1 (stdout_queue g))
                            ++ [After 100] |}) as [Hr [Hq Ht]].
    repeat split; [exact Hr | exact Hq |].
    rewrite Ht. cbn [stdout_queue trace List.concat].
    rewrite !inserted_app. cbn [inserted]. rewrite append_nil_r.
    rewrite !append_assoc. f_equal. rewrite <- !append_assoc.
    rewrite <- !inserted_app, <- flat_map_app. do 3 f_equal.
    rewrite <- !app_assoc, (app_assoc (firstn 1 (stdout_queue g))), head_and_tail.
    reflexivity.
Qed.

End Supervisor.

(** C10 fails on the code.  The source tests the last character against
    the line feed with [is not], the identity of two objects, and not with
    [!=], the equality of their values.  For a text that ends with a line
    feed the test compares two equal strings, the slice [output[-1:]] and
    the literal, and what is inserted rests on the answer of the
    interpreter alone: the text as it is when the two are one object, the
    text with a second line feed when they are not.  So "abc" with a line
    feed is rendered with two line feeds by an interpreter that makes the
    slice a new object, and unchanged by one that shares equal strings. *)
Theorem trailing_newline_rests_on_identity :
  (forall (same_object : string -> string -> bool) (text : string) (g : gui),
      write_to_output_area same_object (Py.VStr (text ++ nl)) g
      = (inr tt,
         with_trace
           (trace g ++ [Insert (if same_object nl nl
                                then text ++ nl else text ++ nl ++ nl)])%list g)) /\
  write_to_output_area fresh_strings (Py.VStr ("abc" ++ nl)) init_gui
  = (inr tt, with_trace [Insert ("abc" ++ nl ++ nl)] init_gui) /\
  write_to_output_area shared_strings (Py.VStr ("abc" ++ nl)) init_gui
  = (inr tt, with_trace [Insert ("abc" ++ nl)] init_gui).
Proof.
  split; [|split; reflexivity].
  intros same_object text g.
  cbn [write_to_output_area]. unfold emit, with_newline.
  rewrite last_slice_append_nl.
  destruct (same_object nl nl); cbn [negb]; [reflexivity|].
  now rewrite append_assoc.
Qed.

(** In an interpreter that shares no strings the identity test never
    succeeds and a line feed is appended to every string. *)
Remark fresh_strings_always_append (s : string) :
  with_newline fresh_strings s = s ++ nl.
Proof. reflexivity. Qed.

(** C2, as stated, fails: with two chunks queued and the worker alive, one
    tick renders the first chunk only and leaves the second one queued. *)
Lemma tick_leaves_second_chunk_queued :
  stdout_queue
    (snd (get_output shared_strings [] true
            (with_queue [Py.VStr "r1"; Py.VStr "r2"] init_gui)))
  = [Py.VStr "r2"] /\
  trace
    (snd (get_output shared_strings [] true
            (with_queue [Py.VStr "r1"; Py.VStr "r2"] init_gui)))
  = [Insert ("r1" ++ nl); After 100].
Proof. split; reflexivity. Qed.

(** ** The commit check boxes *)

(** C9.  A click on one of the six commit check boxes returns normally
    and, when Check Only was not selected together with any of the five
    other boxes before the click, it is not afterwards.  When the click
    selects Check Only, the five others are deselected; when it selects
    one of the five others, Check Only is deselected. *)
Theorem commit_check_exclusion (g : gui) (box : widget * string) :
  In box commit_boxes ->
  exclusive g = true ->
  fst (click box g) = inr tt /\
  exclusive (snd (click box g)) = true /\
  (is_on g (fst box) = false ->
     (fst box = commit_check_button -> others_off (snd (click box g)) = true) /\
     (fst box <> commit_check_button ->
        is_on (snd (click box g)) commit_check_button = false)).
Proof.
  intros Hin Hex. destruct g as [v b q t f w tr].
  unfold exclusive, others_off, is_on in *. cbn [values] in Hex.
  cbn [commit_boxes In] in Hin.
  repeat (destruct Hin as [Hin|Hin]; [subst box|]); try contradiction;
    unfold click, commit_option_update, bind, checked, select, deselect, set, ret;
    cbn [fst snd values String.eqb Ascii.eqb Bool.eqb andb];
    destruct (String.eqb (v commit_check_button) "1") eqn:E1;
    destruct (String.eqb (v commit_blank) "1") eqn:E2;
    destruct (String.eqb (v commit_confirmed_button) "1") eqn:E3;
    destruct (String.eqb (v commit_at) "1") eqn:E4;
    destruct (String.eqb (v commit_synch) "1") eqn:E5;
    destruct (String.eqb (v commit_comment) "1") eqn:E6;
    try discriminate Hex;
    cbn; rewrite ?E1, ?E2, ?E3, ?E4, ?E5, ?E6;
    repeat split; intros; try congruence; try reflexivity.
Qed.

(** C9 at two windows.  In the first one Confirmed Minutes, Synchronize
    and Comment are checked: a click on Check Only checks it and unchecks
    the three.  In the second one Check Only is checked: a click on
    Synchronize checks it and unchecks Check Only. *)
Lemma commit_check_exclusion_witness :
  (In (commit_check_button, "check") commit_boxes /\
   exclusive commented_commit_gui = true /\
   is_on commented_commit_gui commit_check_button = false /\
   others_off commented_commit_gui = false /\
   exclusive (snd (click (commit_check_button, "check") commented_commit_gui)) = true /\
   is_on (snd (click (commit_check_button, "check") commented_commit_gui))
     commit_check_button = true /\
   others_off (snd (click (commit_check_button, "check") commented_commit_gui)) = true) /\
  (In (commit_synch, "synchronize") commit_boxes /\
   exclusive check_only_gui = true /\
   is_on check_only_gui commit_synch = false /\
   is_on check_only_gui commit_check_button = true /\
   exclusive (snd (click (commit_synch, "synchronize") check_only_gui)) = true /\
   is_on (snd (click (commit_synch, "synchronize") check_only_gui)) commit_synch = true /\
   is_on (snd (click (commit_synch, "synchronize") check_only_gui))
     commit_check_button = false).
Proof.
  assert (Hcheck : In (commit_check_button, "check") commit_boxes)
    by (left; reflexivity).
  assert (Hsynch : In (commit_synch, "synchronize") commit_boxes)
    by (cbn [commit_boxes In]; tauto).
  destruct (commit_check_exclusion commented_commit_gui (commit_check_button, "check")
              Hcheck eq_refl) as [_ [Hex1 Hoff1]].
  destruct (commit_check_exclusion check_only_gui (commit_synch, "synchronize")
              Hsynch eq_refl) as [_ [Hex2 Hoff2]].
  split.
  - split; [exact Hcheck|]. split; [reflexivity|]. split; [reflexivity|].
    split; [reflexivity|]. split; [exact Hex1|]. split; [reflexivity|].
    exact (proj1 (Hoff1 eq_refl) eq_refl).
  - split; [exact Hsynch|]. split; [reflexivity|]. split; [reflexivity|].
    split; [reflexivity|]. split; [exact Hex2|]. split; [reflexivity|].
    apply (proj2 (Hoff2 eq_refl)). discriminate.
Defined.

(** ** Starting a run *)

Section Run.

Variable same_object : string -> string -> bool.
Variable clean_lines : string -> list string.

Lemma input_validation_true (g : gui) :
  fst (input_validation g) = inr true -> input_validation g = (inr true, g).
Proof.
  unfold input_validation, bind, get, checked, try_except_else, lift, ret, emit.
  cbn.
  repeat match goal with
  | |- context [if ?c then _ else _] => destruct c; cbn; try discriminate
  end.
  all: try reflexivity.
  all: destruct (Py.int_of_str _) as [e|n]; cbn; try discriminate; try reflexivity.
  destruct e; cbn; discriminate.
Qed.

(** C7.  When the window passes validation with Set Command(s) chosen, [go]
    starts a worker for [wrap.commit] whose argument bundle is, in this
    order, the command text, the check-only flag, the synchronize flag,
    the comment, the confirmed value, the at-time and the blank flag; with
    the Confirmed Minutes box checked and "5" in its entry the confirmed
    value is 300, and with the box unchecked it is [None]. *)
Theorem commit_bundle_confirmed (arrived : list Py.value) (alive : bool) (g : gui) :
  fst (input_validation g) = inr true ->
  values g option_value = "Set Command(s)" ->
  (is_on g commit_confirmed_button = true ->
   values g commit_confirmed_min_entry = "5") ->
  exists w,
    fst (go same_object clean_lines arrived alive g) = inr tt /\
    thread (snd (go same_object clean_lines arrived alive g)) = Some w /\
    In (Start w) (trace (snd (go same_object clean_lines arrived alive g))) /\
    command w = wrap_commit /\
    argsToPass w
    = [Py.VStr (Py.strip (values g option_entry));
       Py.VInt (if is_on g commit_check_button then 1 else 0);
       Py.VInt (if is_on g commit_synch then 1 else 0);
       (if is_on g commit_comment
        then Py.VStr (values g commit_comment_entry) else Py.VNone);
       (if is_on g commit_confirmed_button then Py.VInt 300 else Py.VNone);
       (if is_on g commit_at then Py.VStr (values g commit_at_entry) else Py.VNone);
       Py.VInt (if is_on g commit_blank then 1 else 0)].
Proof.
  intros Hv Hopt Hmin. unfold go.
  erewrite bind_inr by (apply input_validation_true; exact Hv).
  destruct g as [v b q t f wr tr].
  unfold is_on in *. cbn [values] in *.
  step. step_with write_to_output_area_run.
  repeat step. rewrite Hopt. repeat step.
  destruct (String.eqb (v commit_at) "1") eqn:Eat; repeat step;
    (destruct (String.eqb (v commit_confirmed_button) "1") eqn:Econf;
     [rewrite bind_bind; step; rewrite (Hmin eq_refl)|]); repeat step;
    destruct (String.eqb (v commit_comment) "1") eqn:Ecom; repeat step;
    destruct (String.eqb (v wtf_checkbox) "1") eqn:Ewtf; repeat step;
    (destruct alive;
     [rewrite get_output_alive_run | rewrite get_output_dead_run]);
    norm_state; cbn [fst snd wrap_eqb];
    rewrite ?andb_false_r, ?Econf, ?Eat, ?Ecom;
    eexists; (split; [reflexivity|]); (split; [reflexivity|]);
    (split; [|split; reflexivity]);
    cbn [trace]; rewrite !in_app_iff; cbn [In]; tauto.
Qed.

End Run.

(** C7 at two windows.  In the first one Confirmed Minutes holds "5" and
    Synchronize and Comment are checked: the bundle carries 300 in the
    fifth place.  In the second one only Check Only is checked: the fifth
    place is [None]. *)
Lemma commit_bundle_confirmed_witness :
  (fst (input_validation commented_commit_gui) = inr true /\
   values commented_commit_gui option_value = "Set Command(s)" /\
   (is_on commented_commit_gui commit_confirmed_button = true ->
    values commented_commit_gui commit_confirmed_min_entry = "5") /\
   is_on commented_commit_gui commit_confirmed_button = true /\
   exists w,
     thread (snd (go shared_strings one_per_comma [] true commented_commit_gui)) = Some w /\
     command w = wrap_commit /\
     argsToPass w
     = [Py.VStr "set system host-name r1"; Py.VInt 0; Py.VInt 1; Py.VStr "rename r1";
        Py.VInt 300; Py.VNone; Py.VInt 0]) /\
  (fst (input_validation check_only_gui) = inr true /\
   values check_only_gui option_value = "Set Command(s)" /\
   (is_on check_only_gui commit_confirmed_button = true ->
    values check_only_gui commit_confirmed_min_entry = "5") /\
   is_on check_only_gui commit_confirmed_button = false /\
   exists w,
     thread (snd (go shared_strings one_per_comma [] true check_only_gui)) = Some w /\
     command w = wrap_commit /\
     argsToPass w
     = [Py.VStr "set system host-name r1"; Py.VInt 1; Py.VInt 0; Py.VNone;
        Py.VNone; Py.VNone; Py.VInt 0]).
Proof.
  destruct (commit_bundle_confirmed shared_strings one_per_comma [] true
              commented_commit_gui eq_refl eq_refl (fun _ => eq_refl))
    as [w1 [_ [Ht1 [_ [Hc1 Ha1]]]]].
  destruct (commit_bundle_confirmed shared_strings one_per_comma [] true
              check_only_gui eq_refl eq_refl (fun H => ltac:(discriminate H)))
    as [w2 [_ [Ht2 [_ [Hc2 Ha2]]]]].
  split.
  - split; [reflexivity|]. split; [reflexivity|]. split; [intros _; reflexivity|].
    split; [reflexivity|].
    exists w1. split; [exact Ht1|]. split; [exact Hc1|]. exact Ha1.
  - split; [reflexivity|]. split; [reflexivity|].
    split; [intros H; discriminate H|]. split; [reflexivity|].
    exists w2. split; [exact Ht2|]. split; [exact Hc2|]. exact Ha2.
Defined.

(** C6 fails on the code.  After a click on Run Script the button is
    disabled and a further click starts nothing, but Ctrl-R and the menu
    entry still call [go], which starts a second worker thread while the
    first one is alive and not joined. *)
Theorem second_worker_while_first_runs :
  buttons running_gui go_button = disabled /\
  in_flight (trace running_gui) = 1%Z /\
  dispatch shared_strings one_per_comma RunScriptButton [] true running_gui
  = (inr tt, running_gui) /\
  in_flight
    (trace (snd (dispatch shared_strings one_per_comma ControlR [] true running_gui)))
  = 2%Z /\
  in_flight
    (trace (snd (dispatch shared_strings one_per_comma RunScriptMenu [] true running_gui)))
  = 2%Z.
Proof. repeat split; vm_compute; reflexivity. Qed.


(** ** Failures to open a template file *)

Section OpenFailures.

Variable same_object : string -> string -> bool.

Lemma save_template_open_failure
    (items : list (string * widget)) (path filetype err : string) (g : gui) :
  write_error g path = Some err ->
  save_template same_object items path filetype g
  = (inl (Py.UnboundLocalError "output_file"), g).
Proof.
  intros H. unfold save_template, try_except_else, open_wb. rewrite H.
  reflexivity.
Qed.

(** C8.  When the template file cannot be opened for reading,
    [open_template] returns normally, inserts one notice that names the
    file and the error into the output area, and changes nothing else: no
    widget value, no button, not the queue. *)
Theorem open_template_read_failure (path filetype err : string) (g : gui) :
  files g path = inl err ->
  open_template same_object path filetype g
  = (inr tt,
     with_trace
       (trace g ++ [Insert (with_newline same_object
                              (read_failure_notice filetype path err))]) g).
Proof.
  intros H. unfold open_template, try_except_else, open_rb. rewrite H.
  reflexivity.
Qed.

End OpenFailures.

(** C8 at a window for which no file exists. *)
Lemma open_template_read_failure_witness :
  files ready_gui "defaults.ini" = inl "[Errno 2] No such file or directory" /\
  values (snd (open_template shared_strings "defaults.ini" "defaults" ready_gui))
  = values ready_gui.
Proof.
  split; [reflexivity|].
  rewrite (open_template_read_failure shared_strings "defaults.ini" "defaults"
             "[Errno 2] No such file or directory" ready_gui eq_refl).
  reflexivity.
Defined.

(** C5 fails on the code.  When the destination cannot be opened for
    writing, the handler reads the local [output_file], which the failed
    assignment never bound: [save_template] raises [UnboundLocalError] and
    nothing is written to the output area. *)
Theorem save_template_raises_when_open_fails :
  save_template shared_strings template_opts "/etc/jaide/template.txt" "template"
    read_only_gui
  = (inl (Py.UnboundLocalError "output_file"), read_only_gui).
Proof.
  apply (save_template_open_failure shared_strings template_opts
           "/etc/jaide/template.txt" "template" "[Errno 13] Permission denied").
  reflexivity.
Qed.

(** ** Reading a template *)

Section Templates.

Variable same_object : string -> string -> bool.

Lemma with_values_twice (f f' : widget -> string) (g : gui) :
  with_values f' (with_values f g) = with_values f' g.
Proof. reflexivity. Qed.

(** The loop body of [open_template] does what the line asks for. *)
Lemma apply_line_parse (line : string) (g : gui) :
  apply_line line g
  = match parse_line line with
    | inr (w, v) => (inr tt, with_values (upd (values g) w v) g)
    | inl e => (inl e, g)
    end.
Proof.
  unfold apply_line, parse_line.
  destruct (Py.split separator line) as [|name fields]; [reflexivity|].
  unfold bind at 1. cbn [index nth_error ret].
  destruct (String.eqb name "SingleOrMultipleFiles") eqn:Es.
  - apply String.eqb_eq in Es. subst name. cbn [String.eqb Ascii.eqb Bool.eqb].
    unfold bind at 1. cbn [getitem lookup template_opts String.eqb Ascii.eqb Bool.eqb ret].
    destruct fields as [|text fields]; reflexivity.
  - destruct (String.eqb name "Password") eqn:Ep.
    + destruct fields as [|text fields]; [reflexivity|].
      unfold bind at 1. cbn [index nth_error ret].
      unfold bind, lift. destruct (Base64.b64decode (Py.rstrip text)); reflexivity.
    + unfold bind at 1, getitem.
      destruct (lookup name template_opts) as [w|]; [|reflexivity].
      cbn [ret]. destruct fields as [|text fields]; reflexivity.
Qed.

Lemma for_each_parsed (lines : list string) :
  forall g,
    Forall (fun l => exists wv, parse_line l = inr wv) lines ->
    for_each lines apply_line g
    = (inr tt, with_values (applied lines (values g)) g).
Proof.
  induction lines as [|l lines IH]; intros g H.
  - cbn. unfold ret. now rewrite with_values_same.
  - inversion H as [|? ? [[w v] Hl] Hrest]; subst.
    cbn [for_each]. unfold bind. rewrite apply_line_parse, Hl.
    rewrite IH by exact Hrest.
    unfold applied. cbn [fold_left]. rewrite Hl. reflexivity.
Qed.

Lemma for_each_stops (good rest : list string) (bad : string) (e : Py.exn) (g : gui) :
  Forall (fun l => exists wv, parse_line l = inr wv) good ->
  parse_line bad = inl e ->
  for_each (good ++ bad :: rest) apply_line g
  = (inl e, with_values (applied good (values g)) g).
Proof.
  revert g. induction good as [|l good IH]; intros g Hgood Hbad.
  - cbn [app for_each]. unfold bind. rewrite apply_line_parse, Hbad.
    cbn. now rewrite with_values_same.
  - inversion Hgood as [|? ? [[w v] Hl] Hrest]; subst.
    cbn [app for_each]. unfold bind. rewrite apply_line_parse, Hl.
    rewrite IH by assumption.
    unfold applied. cbn [fold_left]. rewrite Hl. reflexivity.
Qed.

(** C4, as the code has it.  When a line of the file is malformed, names no
    known field or carries a secret that does not decode, [open_template]
    stops at that line: the fields set by the lines before it are kept, no
    line after it is applied, whatever it says, and the issue is reported
    once in the output area. *)
Theorem open_template_stops_at_first_issue
    (path filetype content : string) (good rest : list string) (bad : string)
    (e : Py.exn) (g : gui) :
  files g path = inr content ->
  Py.readlines content = (good ++ bad :: rest)%list ->
  Forall (fun l => exists wv, parse_line l = inr wv) good ->
  parse_line bad = inl e ->
  open_template same_object path filetype g
  = (inr tt,
     with_trace
       (trace g ++ [Insert (with_newline same_object (parse_failure_notice e))])
       (with_values (applied good (values g)) g)).
Proof.
  intros Hfile Hlines Hgood Hbad.
  unfold open_template, try_except_else at 1, open_rb. rewrite Hfile.
  unfold try_finally, try_except, try_except_else.
  erewrite bind_inl by (rewrite Hlines; apply for_each_stops; eassumption).
  reflexivity.
Qed.

End Templates.

(** C4 at a template with four well-formed lines, a line that names no
    field of the window and one more well-formed line: the four fields are
    set, the last line is not applied, and one notice is written. *)
Lemma open_template_stops_at_first_issue_witness :
  files (gui_with_file "router.tpl" stale_template init_gui) "router.tpl"
  = inr stale_template /\
  Py.readlines stale_template
  = (four_lines ++ ("Colour:~:blue" ++ nl)%string :: [("SCPDirection:~:Pull" ++ nl)%string])%list /\
  Forall (fun l => exists wv, parse_line l = inr wv) four_lines /\
  parse_line ("Colour:~:blue" ++ nl) = inl (Py.KeyError "Colour") /\
  open_template shared_strings "router.tpl" "template"
    (gui_with_file "router.tpl" stale_template init_gui)
  = (inr tt,
     with_trace
       [Insert ("Could not open template. Error:" ++ nl ++ "'Colour'" ++ nl)]
       (with_values four_values
          (gui_with_file "router.tpl" stale_template init_gui))).
Proof.
  split; [reflexivity|]. split; [reflexivity|].
  split; [repeat constructor; eexists; reflexivity|].
  split; [reflexivity|].
  apply (open_template_stops_at_first_issue shared_strings "router.tpl" "template"
           stale_template four_lines [("SCPDirection:~:Pull" ++ nl)%string]
           ("Colour:~:blue" ++ nl) (Py.KeyError "Colour")
           (gui_with_file "router.tpl" stale_template init_gui)).
  - reflexivity.
  - reflexivity.
  - repeat constructor; eexists; reflexivity.
  - reflexivity.
Defined.

(** C4, as stated, fails: of a file with one malformed line in front of
    four well-formed lines no field is applied; the window keeps the values
    it had and one notice is written. *)
Lemma malformed_first_line_discards_the_rest :
  values
    (snd (open_template shared_strings "router.tpl" "template"
            (gui_with_file "router.tpl" broken_template init_gui))) ip_entry
  = EmptyString /\
  values
    (snd (open_template shared_strings "router.tpl" "template"
            (gui_with_file "router.tpl" broken_template init_gui))) username_entry
  = EmptyString /\
  values
    (snd (open_template shared_strings "router.tpl" "template"
            (gui_with_file "router.tpl" broken_template init_gui))) timeout_entry
  = "300" /\
  values
    (snd (open_template shared_strings "router.tpl" "template"
            (gui_with_file "router.tpl" broken_template init_gui))) scp_dest_entry
  = EmptyString /\
  List.length
    (trace (snd (open_template shared_strings "router.tpl" "template"
                   (gui_with_file "router.tpl" broken_template init_gui))))
  = 1.
Proof. repeat split; vm_compute; reflexivity. Qed.

(** ** Writing a template and reading it back *)

Lemma b2a_plain (n : N) : plain (Base64.b2a n) = true.
Proof.
  unfold Base64.b2a. generalize (N.to_nat n). intros m.
  do 65 (destruct m as [|m]; [reflexivity|]). reflexivity.
Qed.

Lemma b64encode_plain (s : string) : all_chars plain (Base64.b64encode s) = true.
Proof.
  induction s as [|a|a b|a b c rest IH] using Base64Facts.string_ind3;
    cbn [Base64.b64encode all_chars]; rewrite ?b2a_plain, ?IH; reflexivity.
Qed.

Lemma plain_no_char (c : ascii) (s : string) :
  plain c = false -> all_chars plain s = true -> Py.mem_char c s = false.
Proof.
  intros Hc. induction s as [|x s IH]; cbn [all_chars Py.mem_char]; [reflexivity|].
  intros H. apply andb_true_iff in H. destruct H as [Hx Hs].
  rewrite (IH Hs), orb_false_r.
  destruct (Ascii.eqb c x) eqn:E; [|reflexivity].
  apply Ascii.eqb_eq in E. subst x. congruence.
Qed.

Lemma no_colon_no_separator (s : string) :
  Py.mem_char ":"%char s = false -> Py.contains separator s = false.
Proof.
  induction s as [|x s IH]; [reflexivity|].
  cbn [Py.mem_char Py.contains]. intros H.
  apply orb_false_iff in H. destruct H as [Hx Hs].
  rewrite (IH Hs), orb_false_r.
  unfold separator. cbn [String.prefix].
  destruct (ascii_dec ":" x) as [E|_]; [|reflexivity].
  subst x. discriminate Hx.
Qed.

Lemma no_space_rstrip (s : string) :
  all_chars (fun c => negb (Py.is_space c)) s = true -> Py.rstrip s = s.
Proof.
  induction s as [|x s IH]; [reflexivity|].
  cbn [all_chars Py.rstrip]. intros H.
  apply andb_true_iff in H. destruct H as [Hx Hs].
  rewrite (IH Hs). apply negb_true_iff in Hx. rewrite Hx.
  destruct s; reflexivity.
Qed.

Lemma all_chars_weaken (P Q : ascii -> bool) (s : string) :
  (forall c, P c = true -> Q c = true) ->
  all_chars P s = true -> all_chars Q s = true.
Proof.
  intros HPQ. induction s as [|x s IH]; [reflexivity|].
  cbn [all_chars]. intros H. apply andb_true_iff in H. destruct H as [Hx Hs].
  now rewrite (HPQ _ Hx), (IH Hs).
Qed.

Lemma plain_storable (s : string) : all_chars plain s = true -> storable s = true.
Proof.
  intros H. unfold storable.
  rewrite (plain_no_char "010"%char s eq_refl H).
  rewrite (no_colon_no_separator s (plain_no_char ":"%char s eq_refl H)).
  rewrite no_space_rstrip, String.eqb_refl; [reflexivity|].
  apply (all_chars_weaken plain); [|exact H].
  intros c Hc. unfold plain in Hc. now apply andb_true_iff in Hc.
Qed.

Lemma storable_facts (v : string) :
  storable v = true ->
  Py.mem_char "010"%char v = false /\ Py.contains separator v = false /\ Py.rstrip v = v.
Proof.
  unfold storable. intros H.
  apply andb_true_iff in H. destruct H as [H Hr].
  apply andb_true_iff in H. destruct H as [Hn Hs].
  apply negb_true_iff in Hn. apply negb_true_iff in Hs.
  apply String.eqb_eq in Hr. auto.
Qed.

(** What the name of an item of [template_opts] is like. *)
Lemma template_item_facts (name : string) (w : widget) :
  In (name, w) template_opts ->
  Py.mem_char ":"%char name = false /\
  Py.mem_char "010"%char name = false /\
  lookup name template_opts = Some w /\
  (String.eqb name "Password" = true -> w = password_entry) /\
  w <> help_value.
Proof.
  intros H. cbn [template_opts In] in H.
  repeat (destruct H as [H|H];
          [injection H as <- <-;
           repeat split; try reflexivity; try discriminate|]).
  contradiction.
Qed.

(** What [opt_select] leaves in the widgets other than the help text. *)
Lemma opt_select_values (opt : string) (st : gui) (w : widget) :
  String.eqb opt "------" = false ->
  w <> help_value ->
  values (snd (opt_select opt st)) w
  = if String.eqb opt "Set Command(s)" then values st w
    else if is_commit_widget w then "0" else values st w.
Proof.
  intros Hdash Hw. destruct st as [v b q t f wr tr]. unfold opt_select.
  destruct (String.eqb opt "Set Command(s)") eqn:Eset; cbn [negb];
    unfold bind, deselect, set, ret, getitem, raise; norm_state; cbv beta iota;
    rewrite Hdash; norm_state; cbv beta iota;
    destruct (lookup opt help_conversion); norm_state; cbv beta iota;
    cbn [snd values]; unfold upd;
    destruct w; try contradiction; reflexivity.
Qed.

Lemma in_items_existsb (items : list (string * widget)) (name : string) (w : widget) :
  In (name, w) items ->
  existsb (fun item => if widget_eq_dec w (snd item) then true else false) items = true.
Proof.
  intros H. apply existsb_exists. exists (name, w). split; [exact H|].
  cbn [snd]. destruct (widget_eq_dec w w); [reflexivity | contradiction].
Qed.

Lemma is_commit_widget_in (w : widget) :
  is_commit_widget w = true -> In w commit_widgets.
Proof.
  unfold is_commit_widget. intros H. apply existsb_exists in H.
  destruct H as [x [Hx Hw]]. destruct (widget_eq_dec w x); [now subst | discriminate].
Qed.

Section RoundTrip.

Variable same_object : string -> string -> bool.
Variable g : gui.

(** The text behind the separator is storable for every item. *)
Hypothesis values_storable :
  forall name w, In (name, w) template_opts -> w <> password_entry ->
                 storable (values g w) = true.

Lemma template_text_storable (name : string) (w : widget) :
  In (name, w) template_opts -> storable (template_text g (name, w)) = true.
Proof.
  intros Hin. unfold template_text. cbn [fst snd].
  destruct (String.eqb name "Password") eqn:Ep.
  - apply plain_storable, b64encode_plain.
  - apply (values_storable name w Hin).
    intros ->. revert Ep Hin. clear. intros Ep Hin.
    cbn [template_opts In] in Hin.
    repeat (destruct Hin as [Hin|Hin];
            [injection Hin as <-; try discriminate|]).
    contradiction.
Qed.

Lemma parse_template_line (name : string) (w : widget) :
  In (name, w) template_opts ->
  parse_line (template_line g (name, w)) = inr (w, values g w).
Proof.
  intros Hin.
  destruct (template_item_facts name w Hin) as [Hcolon [_ [Hlook [Hpass _]]]].
  destruct (storable_facts _ (template_text_storable name w Hin)) as [_ [Hsep Hstrip]].
  unfold parse_line, template_line. cbn [fst snd].
  rewrite (split_template_line name _ Hcolon Hsep), rstrip_line, Hstrip.
  unfold template_text. cbn [fst snd].
  destruct (String.eqb name "Password") eqn:Ep.
  - rewrite Base64Facts.b64decode_b64encode. now rewrite (Hpass eq_refl).
  - now rewrite Hlook.
Qed.

Lemma template_line_is_line (name : string) (w : widget) (rest : string) :
  In (name, w) template_opts ->
  Py.readlines_from EmptyString (template_line g (name, w) ++ rest)
  = template_line g (name, w) :: Py.readlines_from EmptyString rest.
Proof.
  intros Hin.
  destruct (template_item_facts name w Hin) as [_ [Hnl _]].
  destruct (storable_facts _ (template_text_storable name w Hin)) as [Htext _].
  unfold template_line. cbn [fst snd].
  replace ((name ++ separator ++ template_text g (name, w) ++ nl) ++ rest)
    with ((name ++ separator ++ template_text g (name, w)) ++ nl ++ rest)
    by (now rewrite !append_assoc).
  rewrite readlines_from_line.
  - cbn [append]. now rewrite !append_assoc.
  - rewrite !mem_char_append, Hnl, Htext. reflexivity.
Qed.

Lemma readlines_template (items : list (string * widget)) :
  (forall item, In item items -> In item template_opts) ->
  Py.readlines (join (map (template_line g) items)) = map (template_line g) items.
Proof.
  unfold Py.readlines. induction items as [|[name w] items IH]; intros Hin.
  - reflexivity.
  - cbn [map join fold_right]. rewrite template_line_is_line by (apply Hin; now left).
    f_equal. apply IH. intros item H. apply Hin. now right.
Qed.

Lemma parse_template_lines (items : list (string * widget)) :
  (forall item, In item items -> In item template_opts) ->
  Forall (fun l => exists wv, parse_line l = inr wv) (map (template_line g) items).
Proof.
  induction items as [|[name w] items IH]; intros Hin; cbn [map]; constructor.
  - eexists. apply parse_template_line. apply Hin. now left.
  - apply IH. intros item H. apply Hin. now right.
Qed.

(** Every widget of the items holds the value it had in [g] afterwards. *)
Lemma applied_template_lines (items : list (string * widget)) :
  (forall item, In item items -> In item template_opts) ->
  forall f w,
    applied (map (template_line g) items) f w
    = if existsb (fun item => if widget_eq_dec w (snd item) then true else false) items
      then values g w else f w.
Proof.
  unfold applied.
  induction items as [|[name x] items IH]; intros Hin f w; [reflexivity|].
  cbn [map fold_left existsb snd].
  rewrite parse_template_line by (apply Hin; now left).
  rewrite IH by (intros item H; apply Hin; now right).
  unfold upd.
  destruct (existsb _ items); [now rewrite orb_true_r|].
  rewrite orb_false_r.
  destruct (widget_eq_dec w x) as [->|_]; reflexivity.
Qed.

(** The loop of [save_template] appends the lines of the items to the file. *)
Lemma write_template_lines (path : string) (items : list (string * widget)) :
  forall st content,
    files st path = inr content ->
    values st = values g ->
    exists st',
      for_each items
        (fun item =>
           let key := fst item in
           let value := snd item in
           v <- get value ;;
           if String.eqb key "Password"
           then file_write path (key ++ separator ++ Base64.b64encode v ++ nl)
           else file_write path (key ++ separator ++ v ++ nl)) st
      = (inr tt, st') /\
      files st' path = inr (content ++ join (map (template_line g) items)) /\
      values st' = values g /\
      write_error st' = write_error st /\
      trace st' = trace st.
Proof.
  induction items as [|[name w] items IH]; intros st content Hfile Hvals.
  - exists st. cbn [for_each map join fold_right]. rewrite append_nil_r. auto.
  - cbn [for_each fst snd].
    destruct (IH (with_files
                    (upd_file (files st) path
                       (inr (content ++ template_line g (name, w)))) st)
                 (content ++ template_line g (name, w)))
      as [st' [Hrun [Hf [Hv [Hw Ht]]]]].
    + cbn [files with_files]. unfold upd_file. now rewrite String.eqb_refl.
    + exact Hvals.
    + exists st'. split; [|split; [|split; [|split]]].
      * erewrite bind_inr; [exact Hrun|].
        unfold bind, get. cbv beta iota.
        unfold template_line, template_text. cbn [fst snd]. rewrite Hvals.
        destruct (String.eqb name "Password"); unfold file_write; rewrite Hfile;
          reflexivity.
      * rewrite Hf. cbn [map join fold_right]. now rewrite append_assoc.
      * exact Hv.
      * exact Hw.
      * exact Ht.
Qed.

Lemma save_template_run (items : list (string * widget)) (path filetype : string) :
  write_error g path = None ->
  exists st,
    save_template same_object items path filetype g = (inr tt, st) /\
    files st path = inr (join (map (template_line g) items)) /\
    values st = values g /\
    trace st = trace g.
Proof.
  intros Hw. unfold save_template, try_except_else, open_wb. rewrite Hw.
  destruct (write_template_lines path items
              (with_files (upd_file (files g) path (inr EmptyString)) g) EmptyString)
    as [st [Hrun [Hf [Hv [_ Ht]]]]].
  - cbn [files with_files]. unfold upd_file. now rewrite String.eqb_refl.
  - reflexivity.
  - exists st. split; [|split; [|split]].
    + erewrite bind_inr by exact Hrun. reflexivity.
    + exact Hf.
    + exact Hv.
    + exact Ht.
Qed.

(** C3, as the code has it.  Let every value but the secret be storable
    (no line feed, no separator, no whitespace at its end), let the chosen
    operation not be the rule of the menu, and let the commit boxes be
    unchecked unless the operation is Set Command(s).  Then, in whatever
    order the dictionary yields its items, [save_template] writes one line
    [Name:~:Value] per field, the secret in Base64, and [open_template]
    sets every field of the template back to the value it had when it was
    saved, the secret included, whatever the widgets held before. *)
Theorem template_round_trip
    (items : list (string * widget)) (path filetype : string)
    (others : widget -> string) :
  Permutation items template_opts ->
  write_error g path = None ->
  values g option_value <> "------" ->
  (values g option_value = "Set Command(s)" \/
   forall w, In w commit_widgets -> values g w = "0") ->
  fst (save_template same_object items path filetype g) = inr tt /\
  files (snd (save_template same_object items path filetype g)) path
  = inr (join (map (template_line g) items)) /\
  forall name w,
    In (name, w) template_opts ->
    values (reloaded same_object items path filetype others g) w = values g w.
Proof.
  intros Hperm Hwrite Hdash Hboxes.
  assert (Hin : forall item, In item items -> In item template_opts)
    by (intros item; apply Permutation_in; exact Hperm).
  destruct (save_template_run items path filetype Hwrite)
    as [st [Hsave [Hfile [Hvals Htr]]]].
  unfold reloaded. rewrite Hsave. cbn [fst snd].
  split; [reflexivity|]. split; [exact Hfile|].
  intros name w Hw.
  destruct (template_item_facts name w Hw) as [_ [_ [_ [_ Hhelp]]]].
  assert (Hitem : In (name, w) items)
    by (apply (Permutation_in _ (Permutation_sym Hperm)); exact Hw).
  unfold open_template, try_except_else at 1, open_rb.
  cbn [files with_values]. rewrite Hfile.
  rewrite (readlines_template items Hin).
  unfold try_finally, try_except, try_except_else.
  erewrite bind_inr by (apply for_each_parsed, parse_template_lines; exact Hin).
  rewrite with_values_twice. cbn [values with_values].
  set (F := applied (map (template_line g) items) others).
  assert (HF : forall name' w', In (name', w') template_opts -> F w' = values g w').
  { intros name' w' H'. unfold F. rewrite (applied_template_lines items Hin).
    rewrite (in_items_existsb items name' w'); [reflexivity|].
    apply (Permutation_in _ (Permutation_sym Hperm)); exact H'. }
  unfold bind at 1, get at 1. cbn [values with_values].
  rewrite (HF "Option" option_value) by (cbn; tauto).
  assert (Hdash' : String.eqb (values g option_value) "------" = false)
    by (apply String.eqb_neq; exact Hdash).
  pose proof (opt_select_values (values g option_value) (with_values F st) w
                Hdash' Hhelp) as Hsel.
  cbn [values with_values] in Hsel.
  assert (Hfinal : values (snd (opt_select (values g option_value) (with_values F st))) w
                   = values g w).
  { rewrite Hsel, (HF name w Hw).
    destruct (String.eqb (values g option_value) "Set Command(s)") eqn:Eset;
      [reflexivity|].
    destruct (is_commit_widget w) eqn:Ec; [|reflexivity].
    destruct Hboxes as [Hset|Hoff].
    - apply String.eqb_neq in Eset. contradiction.
    - symmetry. apply Hoff. now apply is_commit_widget_in. }
  unfold bind.
  destruct (opt_select (values g option_value) (with_values F st)) as [[e|u] st4].
  - rewrite write_to_output_area_run. cbn [snd file_close ret values with_trace].
    exact Hfinal.
  - cbn [check_wtf]. unfold check_wtf, bind, checked, ret. cbn [snd file_close values].
    exact Hfinal.
Qed.

End RoundTrip.

(** C3 at the window of [ready_gui], loaded into a fresh window: the secret
    comes back as it was typed. *)
Lemma template_round_trip_witness :
  (forall name w, In (name, w) template_opts -> w <> password_entry ->
                  storable (values ready_gui w) = true) /\
  Permutation template_opts template_opts /\
  write_error ready_gui "router.tpl" = None /\
  values ready_gui option_value <> "------" /\
  (values ready_gui option_value = "Set Command(s)" \/
   forall w, In w commit_widgets -> values ready_gui w = "0") /\
  values (reloaded shared_strings template_opts "router.tpl" "template"
            init_values ready_gui) password_entry
  = "sw0rdfish".
Proof.
  assert (Hst : forall name w, In (name, w) template_opts -> w <> password_entry ->
                               storable (values ready_gui w) = true).
  { intros name w Hin _. cbn [template_opts In] in Hin.
    repeat (destruct Hin as [Hin|Hin]; [injection Hin as <- <-; reflexivity|]).
    contradiction. }
  assert (Hoff : forall w, In w commit_widgets -> values ready_gui w = "0").
  { intros w Hin. cbn in Hin.
    repeat (destruct Hin as [Hin|Hin]; [subst w; reflexivity|]).
    contradiction. }
  split; [exact Hst|]. split; [apply Permutation_refl|].
  split; [reflexivity|]. split; [discriminate|]. split; [right; exact Hoff|].
  apply (proj2 (proj2 (template_round_trip shared_strings ready_gui Hst
                         template_opts "router.tpl" "template" init_values
                         (Permutation_refl _) eq_refl
                         (fun H => ltac:(discriminate H)) (or_intror Hoff)))
           "Password" password_entry).
  cbn [template_opts In]. tauto.
Defined.

(** C3, as stated, fails: a command that ends in a blank is written as it
    is and read back without the blank. *)
Lemma trailing_blank_is_lost :
  values trailing_blank_gui option_entry = "show version " /\
  values (reloaded shared_strings template_opts "router.tpl" "template"
            (values trailing_blank_gui) trailing_blank_gui) option_entry
  = "show version".
Proof. split; vm_compute; reflexivity. Qed.

(** ** Validation *)

Lemma int_of_str_error (s : string) (e : Py.exn) :
  Py.int_of_str s = inl e -> exists msg, e = Py.ValueError msg.
Proof.
  unfold Py.int_of_str.
  destruct (match Py.strip s with
            | String "-"%char u => option_map Z.opp (Py.unsigned_of u)
            | String "+"%char u => Py.unsigned_of u
            | _ => Py.unsigned_of (Py.strip s)
            end); [discriminate|].
  intros H. injection H as <-. eexists. reflexivity.
Qed.

Lemma input_validation_outcome (g : gui) :
  input_validation g = (inr true, g) \/
  exists title message,
    input_validation g
    = (inr false, with_trace (trace g ++ [ShowInfo title message]) g).
Proof.
  unfold input_validation, bind, get, checked, try_except_else, lift, ret, emit.
  cbn.
  repeat match goal with
  | |- context [if ?c then _ else _] => destruct c; cbn
  end.
  all: try (left; reflexivity).
  all: try (right; eexists; eexists; reflexivity).
  all: destruct (Py.int_of_str _) as [e|n] eqn:E; cbn; try (left; reflexivity).
  all: destruct (int_of_str_error _ _ E) as [msg ->]; cbn.
  all: right; eexists; eexists; reflexivity.
Qed.

(** X2.  [input_validation] never raises and changes nothing but the screen:
    it answers True and shows nothing, or answers False and shows exactly
    one message box. *)
Theorem input_validation_shows_one_dialog_or_passes (g : gui) :
  exists (ok : bool) (title message : string),
    input_validation g
    = (inr ok,
       with_trace
         (trace g ++ (if ok then nil else [ShowInfo title message]))%list g).
Proof.
  destruct (input_validation_outcome g) as [H|[title [message H]]].
  - exists true, EmptyString, EmptyString.
    rewrite app_nil_r, with_trace_same. exact H.
  - exists false, title, message. exact H.
Qed.

(** A window that passes validation with Set Command(s) chosen and the
    Confirmed Minutes box checked has an integer in the minutes entry. *)
Lemma validated_minutes_parse (g : gui) :
  fst (input_validation g) = inr true ->
  values g option_value = "Set Command(s)" ->
  is_on g commit_confirmed_button = true ->
  exists n, Py.int_of_str (values g commit_confirmed_min_entry) = inr n.
Proof.
  unfold is_on. intros Hv Hopt Hon. revert Hv.
  unfold input_validation, bind, get, checked, try_except_else, lift, ret, emit.
  cbn. rewrite Hopt. cbn.
  repeat match goal with
  | |- context [if ?c then _ else _] =>
      destruct c; cbn; rewrite ?Hon; cbn; try discriminate
  end.
  all: destruct (Py.int_of_str _) as [e|n] eqn:E; cbn;
    [destruct (int_of_str_error _ _ E) as [msg ->]; cbn; discriminate|].
  all: intros _; now exists n.
Qed.

Section MoreRun.

Variable same_object : string -> string -> bool.
Variable clean_lines : string -> list string.

Lemma bind_optional_text (b : bool) (w : widget) {B : Type} (k : Py.value -> M B) (g : gui) :
  bind (if b then t <- get w ;; ret (Py.VStr t) else ret Py.VNone) k g
  = k (if b then Py.VStr (values g w) else Py.VNone) g.
Proof. destruct b; reflexivity. Qed.

Lemma bind_optional_path (b : bool) (w : widget) {B : Type} (k : string -> M B) (g : gui) :
  bind (if b then get w else ret EmptyString) k g
  = k (if b then values g w else EmptyString) g.
Proof. destruct b; reflexivity. Qed.

Lemma bind_confirmed (b : bool) (n : Z) {B : Type} (k : Py.value -> M B) (g : gui) :
  (b = true -> Py.int_of_str (values g commit_confirmed_min_entry) = inr n) ->
  bind (if b
        then minutes <- get commit_confirmed_min_entry ;;
             n <- lift (Py.int_of_str minutes) ;;
             ret (Py.VInt (n * 60))
        else ret Py.VNone) k g
  = k (if b then Py.VInt (n * 60) else Py.VNone) g.
Proof.
  destruct b; [|reflexivity]. intros H.
  unfold bind, get, lift, ret. now rewrite (H eq_refl).
Qed.

(** What [go] does up to its first tick, for a window that passes
    validation, an operation of [option_conversion] and minutes that are
    an integer when their box is checked. *)
Lemma go_run (arrived : list Py.value) (alive : bool) (g : gui)
    (function : wrap) (n : Z) (args : list Py.value) :
  fst (input_validation g) = inr true ->
  lookup (values g option_value) option_conversion = Some function ->
  (is_on g commit_confirmed_button = true ->
   Py.int_of_str (values g commit_confirmed_min_entry) = inr n) ->
  lookup (values g option_value)
    (args_translation clean_lines g
       (optional_text g commit_comment commit_comment_entry)
       (if is_on g commit_confirmed_button then Py.VInt (n * 60) else Py.VNone)
       (optional_text g commit_at commit_at_entry))
  = Some args ->
  go same_object clean_lines arrived alive g
  = get_output same_object arrived alive
      (started same_object g (worker_of g function args)).
Proof.
  intros Hv Hlook Hmin Hargs. unfold go.
  erewrite bind_inr by (apply input_validation_true; exact Hv).
  destruct g as [v b q t f wr tr].
  unfold args_translation, optional_text, is_on, started, worker_of, chosen_function,
    running_state, running_buttons in *.
  cbn [values buttons stdout_queue thread files write_error trace] in *.
  step. step_with write_to_output_area_run.
  repeat step.
  erewrite bind_inr by (unfold getitem; rewrite Hlook; reflexivity). norm_state.
  repeat step.
  rewrite bind_optional_text. norm_state. step.
  rewrite (bind_confirmed _ n) by exact Hmin. norm_state. step.
  rewrite bind_optional_text. norm_state.
  repeat step.
  erewrite bind_inr by (unfold getitem; rewrite Hargs; reflexivity). norm_state.
  step. rewrite bind_optional_path. norm_state.
  repeat step.
  unfold emit. norm_state. cbn [render app].
  rewrite <- !app_assoc. reflexivity.
Qed.

Lemma in_flight_app (t u : list event) :
  in_flight (t ++ u) = (in_flight t + in_flight u)%Z.
Proof.
  induction t as [|e t IH]; [reflexivity|].
  destruct e; cbn [app in_flight]; rewrite IH; lia.
Qed.

Lemma in_flight_render (chunks : list Py.value) :
  in_flight (flat_map (render same_object) chunks) = 0%Z.
Proof.
  induction chunks as [|c chunks IH]; [reflexivity|].
  cbn [flat_map]. rewrite in_flight_app, IH. destruct c; reflexivity.
Qed.

(** The window a whole sequence of ticks leaves. *)
Lemma poll_run (ticks : list (list Py.value)) :
  forall (last : list Py.value) (g : gui),
  exists added,
    poll same_object ticks last g
    = (inr tt,
       {| values := values g;
          buttons := terminal_state (buttons g);
          stdout_queue := [];
          thread := thread g;
          files := files g;
          write_error := write_error g;
          trace := trace g ++ added |}) /\
    in_flight added = (-1)%Z /\
    inserted added
    = inserted (flat_map (render same_object)
                  (stdout_queue g ++ List.concat ticks ++ last))
      ++ with_newline same_object completed_notice.
Proof.
  induction ticks as [|arrived ticks IH]; intros last g.
  - eexists. cbn [poll]. rewrite get_output_dead_run. split; [reflexivity|]. split.
    + rewrite !in_flight_app, in_flight_render. reflexivity.
    + rewrite !inserted_app. cbn [List.concat app render inserted terminal_buttons].
      cbn [append]. now rewrite !append_nil_r.
  - cbn [poll]. erewrite bind_inr by apply get_output_alive_run.
    match goal with
    | |- context [poll same_object ticks last ?st] =>
        destruct (IH last st) as [added [Hrun [Hfl Hins]]]
    end.
    cbn [values buttons stdout_queue thread files write_error trace] in Hrun, Hins.
    eexists. rewrite Hrun. split; [|split].
    + rewrite <- !app_assoc. reflexivity.
    + rewrite !in_flight_app, in_flight_render, Hfl. reflexivity.
    + rewrite !inserted_app, Hins. cbn [inserted List.concat append].
      rewrite <- append_assoc, <- inserted_app, <- flat_map_app.
      do 3 f_equal.
      rewrite <- !app_assoc, (app_assoc (firstn 1 (stdout_queue g))), head_and_tail.
      reflexivity.
Qed.

Lemma bundle_lookup (g : gui) (function : wrap) (comment confirmed at_time : Py.value) :
  lookup (values g option_value) option_conversion = Some function ->
  exists args,
    lookup (values g option_value)
      (args_translation clean_lines g comment confirmed at_time) = Some args.
Proof.
  unfold option_conversion, args_translation. cbn [lookup].
  repeat match goal with
  | |- context [String.eqb (values g option_value) ?k] =>
      destruct (String.eqb (values g option_value) k)
  end; try discriminate; intros _; eexists; reflexivity.
Qed.


Lemma get_output_keeps_thread (arrived : list Py.value) (alive : bool) (g : gui) :
  fst (get_output same_object arrived alive g) = inr tt /\
  thread (snd (get_output same_object arrived alive g)) = thread g /\
  values (snd (get_output same_object arrived alive g)) = values g.
Proof.
  destruct alive; [rewrite get_output_alive_run | rewrite get_output_dead_run];
    repeat split.
Qed.


(** X7.  While the worker is alive at the first tick, [go] has written the
    start notice, started the worker, disabled Run Script, Clear Output and
    Save Output, enabled Stop Script, rendered at most the oldest chunk and
    scheduled the next tick; no widget value has changed. *)
Theorem go_locks_buttons_while_running (arrived : list Py.value) (g : gui)
    (function : wrap) (n : Z) :
  fst (input_validation g) = inr true ->
  lookup (values g option_value) option_conversion = Some function ->
  (is_on g commit_confirmed_button = true ->
   Py.int_of_str (values g commit_confirmed_min_entry) = inr n) ->
  exists w,
    trace (snd (go same_object clean_lines arrived true g))
    = (trace g ++ [MarkSetEnd] ++ render same_object (Py.VStr start_notice)
         ++ [Start w] ++ running_buttons
         ++ flat_map (render same_object) (firstn 1 (stdout_queue g))
         ++ [After 100])%list /\
    buttons (snd (go same_object clean_lines arrived true g)) go_button = disabled /\
    buttons (snd (go same_object clean_lines arrived true g)) clear_button = disabled /\
    buttons (snd (go same_object clean_lines arrived true g)) save_button = disabled /\
    buttons (snd (go same_object clean_lines arrived true g)) stop_button = normal /\
    values (snd (go same_object clean_lines arrived true g)) = values g.
Proof.
  intros Hv Hlook Hmin.
  destruct (bundle_lookup g function
              (optional_text g commit_comment commit_comment_entry)
              (if is_on g commit_confirmed_button then Py.VInt (n * 60) else Py.VNone)
              (optional_text g commit_at commit_at_entry) Hlook) as [args Hargs].
  exists (worker_of g function args).
  rewrite (go_run arrived true g function n args Hv Hlook Hmin Hargs).
  rewrite get_output_alive_run. unfold started.
  cbn [fst snd values buttons stdout_queue thread files write_error trace].
  repeat split. rewrite <- !app_assoc. reflexivity.
Qed.

(** X8.  A whole run returns the window to rest: the queue is empty, Run
    Script, Clear Output and Save Output are enabled and Stop Script is
    disabled again, the one worker that was started has been joined, no
    widget value has changed, and the output area has received the start
    notice, every chunk in the order of the queue, and the completion
    notice. *)
Theorem complete_run_returns_to_rest
    (ticks : list (list Py.value)) (last : list Py.value) (g : gui)
    (function : wrap) (n : Z) :
  fst (input_validation g) = inr true ->
  lookup (values g option_value) option_conversion = Some function ->
  (is_on g commit_confirmed_button = true ->
   Py.int_of_str (values g commit_confirmed_min_entry) = inr n) ->
  fst (run same_object clean_lines ticks last g) = inr tt /\
  stdout_queue (snd (run same_object clean_lines ticks last g)) = [] /\
  buttons (snd (run same_object clean_lines ticks last g)) go_button = normal /\
  buttons (snd (run same_object clean_lines ticks last g)) clear_button = normal /\
  buttons (snd (run same_object clean_lines ticks last g)) save_button = normal /\
  buttons (snd (run same_object clean_lines ticks last g)) stop_button = disabled /\
  values (snd (run same_object clean_lines ticks last g)) = values g /\
  in_flight (trace (snd (run same_object clean_lines ticks last g)))
  = in_flight (trace g) /\
  inserted (trace (snd (run same_object clean_lines ticks last g)))
  = inserted (trace g) ++ with_newline same_object start_notice
    ++ inserted (flat_map (render same_object)
                   (stdout_queue g ++ List.concat ticks ++ last))
    ++ with_newline same_object completed_notice.
Proof.
  intros Hv Hlook Hmin.
  destruct (bundle_lookup g function
              (optional_text g commit_comment commit_comment_entry)
              (if is_on g commit_confirmed_button then Py.VInt (n * 60) else Py.VNone)
              (optional_text g commit_at commit_at_entry) Hlook) as [args Hargs].
  assert (Hrun : run same_object clean_lines ticks last g
                 = poll same_object ticks last
                     (started same_object g (worker_of g function args))).
  { destruct ticks as [|first ticks]; cbn [run poll].
    - apply go_run with (n := n); assumption.
    - unfold bind.
      rewrite (go_run first true g function n args Hv Hlook Hmin Hargs).
      reflexivity. }
  rewrite Hrun.
  destruct (poll_run ticks last (started same_object g (worker_of g function args)))
    as [added [Hp [Hfl Hins]]].
  rewrite Hp. unfold started.
  cbn [fst snd values buttons stdout_queue thread files write_error trace].
  repeat split.
  - rewrite !in_flight_app, Hfl. cbn [in_flight render running_buttons app]. lia.
  - rewrite !inserted_app, Hins.
    cbn [inserted render running_buttons app stdout_queue started append].
    rewrite ?append_nil_r, ?append_assoc. cbn [append]. reflexivity.
Qed.

(** X9.  Validation reads the minutes only for Set Command(s), [go] whenever
    their box is checked: with another operation chosen, the box checked
    and no integer in the entry, [go] raises the [ValueError] of [int]
    after it has written the start notice; no worker is started and no
    button changes. *)
Theorem go_raises_on_unvalidated_minutes (arrived : list Py.value) (alive : bool)
    (g : gui) (function : wrap) (e : Py.exn) :
  fst (input_validation g) = inr true ->
  lookup (values g option_value) option_conversion = Some function ->
  is_on g commit_confirmed_button = true ->
  Py.int_of_str (values g commit_confirmed_min_entry) = inl e ->
  values g option_value <> "Set Command(s)" /\
  go same_object clean_lines arrived alive g
  = (inl e,
     with_trace (trace g ++ [MarkSetEnd] ++ render same_object (Py.VStr start_notice)) g).
Proof.
  intros Hv Hlook Hon Hparse. split.
  - intros Hopt. destruct (validated_minutes_parse g Hv Hopt Hon) as [n Hn].
    rewrite Hn in Hparse. discriminate.
  - unfold go.
    erewrite bind_inr by (apply input_validation_true; exact Hv).
    destruct g as [v b q t f wr tr]. unfold is_on in *.
    cbn [values buttons stdout_queue thread files write_error trace] in *.
    step. step_with write_to_output_area_run.
    repeat step.
    erewrite bind_inr by (unfold getitem; rewrite Hlook; reflexivity). norm_state.
    repeat step.
    rewrite bind_optional_text. norm_state. step.
    rewrite Hon. rewrite bind_bind. step. rewrite bind_bind.
    erewrite bind_inl by (unfold lift; rewrite Hparse; reflexivity).
    unfold with_trace. norm_state. cbn [render app].
    rewrite <- !app_assoc. reflexivity.
Qed.


(** X11.  The confirmed value is sixty times whatever integer the entry holds:
    the range of 1 to 60 minutes that the message box of validation names
    is not checked. *)
Theorem confirmed_is_sixty_times_minutes (arrived : list Py.value) (alive : bool)
    (g : gui) (n : Z) :
  fst (input_validation g) = inr true ->
  values g option_value = "Set Command(s)" ->
  is_on g commit_confirmed_button = true ->
  Py.int_of_str (values g commit_confirmed_min_entry) = inr n ->
  exists w,
    thread (snd (go same_object clean_lines arrived alive g)) = Some w /\
    argsToPass w = commit_bundle g (Py.VInt (n * 60)).
Proof.
  intros Hv Hopt Hon Hn.
  eexists.
  erewrite go_run with (function := wrap_commit) (n := n);
    [ | exact Hv | rewrite Hopt; reflexivity | intros _; exact Hn
      | rewrite Hopt, Hon; reflexivity ].
  destruct (get_output_keeps_thread arrived alive
              (started same_object g
                 (worker_of g wrap_commit
                    (commit_bundle g (Py.VInt (n * 60)))))) as [_ [Ht _]].
  split.
  - etransitivity; [|reflexivity]. unfold commit_bundle, optional_text in *. exact Ht.
  - reflexivity.
Qed.

End MoreRun.

(** ** A rejected run *)

Section Rejected.

Variable same_object : string -> string -> bool.
Variable clean_lines : string -> list string.

(** X5.  When validation fails, [go] returns normally and all it has done is
    the one message box of validation: no notice is written, no worker is
    started, no button and no widget changes. *)
Theorem go_rejected_shows_dialog_only (arrived : list Py.value) (alive : bool) (g : gui) :
  fst (input_validation g) = inr false ->
  exists title message,
    go same_object clean_lines arrived alive g
    = (inr tt, with_trace (trace g ++ [ShowInfo title message]) g).
Proof.
  intros Hv. destruct (input_validation_outcome g) as [H|[title [message H]]].
  - rewrite H in Hv. discriminate.
  - exists title, message. unfold go. erewrite bind_inr by exact H. reflexivity.
Qed.

End Rejected.

(** ** More on the commit check boxes *)

(** X12.  [commit_option_update] never selects a box: whatever [check_type] it is
    called with, it returns normally and every widget either keeps its
    value or is a commit check box that is now deselected; nothing else of
    the window changes. *)
Theorem commit_option_update_only_deselects (check_type : string) (g : gui) (w : widget) :
  fst (commit_option_update check_type g) = inr tt /\
  (values (snd (commit_option_update check_type g)) w = values g w \/
   In w commit_widgets /\ values (snd (commit_option_update check_type g)) w = "0") /\
  trace (snd (commit_option_update check_type g)) = trace g /\
  buttons (snd (commit_option_update check_type g)) = buttons g.
Proof.
  destruct g as [v b q t f wr tr].
  unfold commit_option_update, bind, checked, deselect, set, ret; norm_state;
    cbv beta iota.
  repeat match goal with
  | |- context [if ?c then _ else _] => destruct c
  end; norm_state; cbv beta iota; cbn [fst snd values trace buttons]; unfold upd;
    (split; [reflexivity|]); (split; [|split; reflexivity]);
    destruct w; cbn; auto 10.
Qed.

(** X13.  A click on a commit check box keeps Confirmed Minutes apart from Blank
    and from At Time: when it was not selected together with either before
    the click, it is not afterwards. *)
Theorem click_keeps_confirmed_alone (g : gui) (box : widget * string) :
  In box commit_boxes ->
  confirmed_alone g = true ->
  confirmed_alone (snd (click box g)) = true.
Proof.
  intros Hin Hal. destruct g as [v b q t f w tr].
  unfold confirmed_alone, is_on in *. cbn [values] in Hal.
  cbn [commit_boxes In] in Hin.
  repeat (destruct Hin as [Hin|Hin]; [subst box|]); try contradiction;
    unfold click, commit_option_update, bind, checked, select, deselect, set, ret;
    cbn [fst snd values String.eqb Ascii.eqb Bool.eqb andb];
    destruct (String.eqb (v commit_check_button) "1") eqn:E1;
    destruct (String.eqb (v commit_blank) "1") eqn:E2;
    destruct (String.eqb (v commit_confirmed_button) "1") eqn:E3;
    destruct (String.eqb (v commit_at) "1") eqn:E4;
    destruct (String.eqb (v commit_synch) "1") eqn:E5;
    destruct (String.eqb (v commit_comment) "1") eqn:E6;
    try discriminate Hal;
    cbn; rewrite ?E1, ?E2, ?E3, ?E4, ?E5, ?E6; reflexivity.
Qed.

(** X14.  At Time and Blank exclude each other one way only: a click that selects
    At Time deselects Blank, but a click that selects Blank leaves At Time
    selected. *)
Theorem at_time_and_blank_exclude_one_way (g : gui) :
  (is_on g commit_at = false ->
   is_on (snd (click (commit_at, "at") g)) commit_at = true /\
   is_on (snd (click (commit_at, "at") g)) commit_blank = false) /\
  (is_on g commit_blank = false ->
   is_on (snd (click (commit_blank, "blank") g)) commit_blank = true /\
   is_on (snd (click (commit_blank, "blank") g)) commit_at = is_on g commit_at).
Proof.
  destruct g as [v b q t f w tr]. unfold is_on. cbn [values].
  split; intros H;
    unfold click, commit_option_update, bind, checked, select, deselect, set, ret;
    cbn [fst snd values]; rewrite H; cbn; split; reflexivity.
Qed.

(** ** Choosing an operation *)

(** X15.  For an operation that has a help text, [opt_select] returns normally
    and shows that text; it deselects the six commit check boxes unless
    the operation is Set Command(s), and changes no other widget. *)
Theorem opt_select_known_operation (opt help : string) (g : gui) (w : widget) :
  lookup opt help_conversion = Some help ->
  fst (opt_select opt g) = inr tt /\
  values (snd (opt_select opt g)) help_value = help /\
  (w <> help_value ->
   values (snd (opt_select opt g)) w
   = if String.eqb opt "Set Command(s)" then values g w
     else if is_commit_widget w then "0" else values g w) /\
  trace (snd (opt_select opt g)) = trace g.
Proof.
  intros Hhelp.
  assert (Hdash : String.eqb opt "------" = false).
  { destruct (String.eqb opt "------") eqn:E; [|reflexivity].
    apply String.eqb_eq in E. subst opt. discriminate Hhelp. }
  assert (Hrest : w <> help_value ->
                  values (snd (opt_select opt g)) w
                  = if String.eqb opt "Set Command(s)" then values g w
                    else if is_commit_widget w then "0" else values g w)
    by (intros Hw; now apply opt_select_values).
  revert Hrest. destruct g as [v b q t f wr tr]. unfold opt_select.
  destruct (String.eqb opt "Set Command(s)"); cbn [negb];
    repeat (rewrite bind_bind || step); rewrite Hdash;
    repeat (rewrite bind_bind || step);
    (erewrite bind_inr by (unfold getitem; rewrite Hhelp; reflexivity));
    unfold set; norm_state; cbn [fst snd]; unfold upd at 1;
    cbn [widget_eq_dec widget_rec widget_rect]; intros Hrest;
    (split; [reflexivity|]); (split; [reflexivity|]);
    (split; [exact Hrest | reflexivity]).
Qed.

(** X16.  The rule of the menu has no help text: [opt_select("------")] moves the
    choice to Device Info and deselects the commit check boxes, then raises
    [KeyError]; the help text stays as it was. *)
Theorem opt_select_separator_raises (g : gui) :
  fst (opt_select "------" g) = inl (Py.KeyError "------") /\
  values (snd (opt_select "------" g)) option_value = "Device Info" /\
  values (snd (opt_select "------" g)) help_value = values g help_value /\
  (forall w, In w commit_widgets -> values (snd (opt_select "------" g)) w = "0").
Proof.
  destruct g as [v b q t f wr tr]. unfold opt_select.
  cbn [String.eqb Ascii.eqb Bool.eqb negb].
  repeat (rewrite bind_bind || step).
  erewrite bind_inl by reflexivity.
  cbn [fst snd values]. unfold upd.
  split; [reflexivity|]. split; [reflexivity|]. split; [reflexivity|].
  intros w Hw. cbn in Hw.
  repeat (destruct Hw as [Hw|Hw]; [subst w; reflexivity|]). contradiction.
Qed.

(** ** Clearing the fields *)

(** X17.  [clear_fields] returns normally.  It empties the address, the user
    name, the password, the output file, the argument, the SCP
    destination, the comment and the at-time entries, sets the session
    timeout to 300 and deselects Write to file and the six commit boxes.
    It leaves every other widget as it is, among them the operation, the
    port, the connection timeout, the format box and the minutes entry.
    Doing it twice is the same as doing it once. *)
Theorem clear_fields_clears_and_keeps (g : gui) (w : widget) :
  fst (clear_fields g) = inr tt /\
  values (snd (clear_fields g)) w
  = (if existsb (fun x => if widget_eq_dec w x then true else false)
          [ip_entry; username_entry; password_entry; wtf_entry; option_entry;
           scp_dest_entry; commit_comment_entry; commit_at_entry]
     then EmptyString
     else if widget_eq_dec w timeout_entry then "300"
     else if widget_eq_dec w wtf_checkbox then "0"
     else if is_commit_widget w then "0"
     else values g w) /\
  values (snd (clear_fields (snd (clear_fields g)))) w
  = values (snd (clear_fields g)) w /\
  trace (snd (clear_fields g)) = trace g /\
  buttons (snd (clear_fields g)) = buttons g.
Proof.
  destruct g as [v b q t f wr tr].
  assert (Hrun : forall v0 tr0,
            exists v1,
              clear_fields
                {| values := v0; buttons := b; stdout_queue := q; thread := t;
                   files := f; write_error := wr; trace := tr0 |}
              = (inr tt,
                 {| values := v1; buttons := b; stdout_queue := q; thread := t;
                    files := f; write_error := wr; trace := tr0 |}) /\
              forall x,
                v1 x
                = (if existsb (fun y => if widget_eq_dec x y then true else false)
                        [ip_entry; username_entry; password_entry; wtf_entry;
                         option_entry; scp_dest_entry; commit_comment_entry;
                         commit_at_entry]
                   then EmptyString
                   else if widget_eq_dec x timeout_entry then "300"
                   else if widget_eq_dec x wtf_checkbox then "0"
                   else if is_commit_widget x then "0"
                   else v0 x)).
  { intros v0 tr0. eexists. split.
    - unfold clear_fields, delete_all, insert_front, deselect.
      repeat (rewrite bind_bind || step). unfold set. norm_state. reflexivity.
    - intros x. unfold upd. destruct x; reflexivity. }
  destruct (Hrun v tr) as [v1 [H1 Hv1]]. rewrite H1. cbn [fst snd values trace buttons].
  destruct (Hrun v1 tr) as [v2 [H2 Hv2]]. rewrite H2. cbn [fst snd values trace buttons].
  split; [reflexivity|]. split; [apply Hv1|]. split; [|split; reflexivity].
  rewrite Hv2, Hv1. destruct w; reflexivity.
Qed.

Section ClearedRun.

Variable same_object : string -> string -> bool.
Variable clean_lines : string -> list string.

(** X18.  After [clear_fields] a run is refused: [go] only shows the message box
    that asks for an address and starts nothing. *)
Theorem clear_fields_blocks_go (arrived : list Py.value) (alive : bool) (g : gui) :
  go same_object clean_lines arrived alive (snd (clear_fields g))
  = (inr tt,
     with_trace
       (trace g ++ [ShowInfo "IP Entry"
                      "Please enter an IP address or IP address list file."])
       (snd (clear_fields g))).
Proof.
  destruct g as [v b q t f wr tr].
  unfold clear_fields, delete_all, insert_front, deselect.
  repeat (rewrite bind_bind || step). unfold set. norm_state. cbn [snd].
  unfold go, input_validation.
  repeat (rewrite bind_bind || step).
  reflexivity.
Qed.

End ClearedRun.

(** ** More on templates *)

Section MoreTemplates.

Variable same_object : string -> string -> bool.

(** The loop of [save_template], with all it leaves alone. *)
Lemma write_lines_frame (path : string) (items : list (string * widget)) :
  forall st content,
    files st path = inr content ->
    exists st',
      for_each items
        (fun item =>
           let key := fst item in
           let value := snd item in
           v <- get value ;;
           if String.eqb key "Password"
           then file_write path (key ++ separator ++ Base64.b64encode v ++ nl)
           else file_write path (key ++ separator ++ v ++ nl)) st
      = (inr tt, st') /\
      files st' path = inr (content ++ join (map (template_line st) items)) /\
      (forall p, p <> path -> files st' p = files st p) /\
      values st' = values st /\
      write_error st' = write_error st /\
      trace st' = trace st /\
      buttons st' = buttons st.
Proof.
  induction items as [|[name w] items IH]; intros st content Hfile.
  - exists st. cbn [for_each map join fold_right]. rewrite append_nil_r.
    repeat split; auto.
  - cbn [for_each fst snd].
    destruct (IH (with_files
                    (upd_file (files st) path
                       (inr (content ++ template_line st (name, w)))) st)
                 (content ++ template_line st (name, w)))
      as [st' [Hrun [Hf [Hothers [Hv [Hw [Ht Hb]]]]]]].
    + cbn [files with_files]. unfold upd_file. now rewrite String.eqb_refl.
    + exists st'. split; [|split; [|split; [|repeat split]]].
      * erewrite bind_inr; [exact Hrun|].
        unfold bind, get. cbv beta iota.
        unfold template_line, template_text. cbn [fst snd].
        destruct (String.eqb name "Password"); unfold file_write; rewrite Hfile;
          reflexivity.
      * rewrite Hf. cbn [map join fold_right]. now rewrite append_assoc.
      * intros p Hp. rewrite (Hothers p Hp). cbn [files with_files]. unfold upd_file.
        apply String.eqb_neq in Hp. now rewrite Hp.
      * exact Hv.
      * exact Hw.
      * exact Ht.
      * exact Hb.
Qed.

Lemma save_template_frame (items : list (string * widget)) (path filetype : string)
    (g : gui) :
  write_error g path = None ->
  exists st,
    save_template same_object items path filetype g = (inr tt, st) /\
    files st path = inr (join (map (template_line g) items)) /\
    (forall p, p <> path -> files st p = files g p) /\
    values st = values g /\
    write_error st = write_error g /\
    trace st = trace g /\
    buttons st = buttons g.
Proof.
  intros Hw. unfold save_template, try_except_else, open_wb. rewrite Hw.
  destruct (write_lines_frame path items
              (with_files (upd_file (files g) path (inr EmptyString)) g) EmptyString)
    as [st [Hrun [Hf [Hothers [Hv [Hwe [Ht Hb]]]]]]].
  - cbn [files with_files]. unfold upd_file. now rewrite String.eqb_refl.
  - exists st. split; [|split; [|split; [|repeat split]]].
    + erewrite bind_inr by exact Hrun. reflexivity.
    + exact Hf.
    + intros p Hp. rewrite (Hothers p Hp). cbn [files with_files]. unfold upd_file.
      apply String.eqb_neq in Hp. now rewrite Hp.
    + exact Hv.
    + exact Hwe.
    + exact Ht.
    + exact Hb.
Qed.

Lemma template_line_values (g st : gui) (items : list (string * widget)) :
  values st = values g ->
  map (template_line st) items = map (template_line g) items.
Proof.
  intros H. apply map_ext. intros item. unfold template_line, template_text.
  now rewrite H.
Qed.

(** X19.  When the destination can be opened, [save_template] returns normally
    and replaces the file: its content is one line per item, whatever the
    file held before, so saving again leaves the same file.  No other
    file, no widget, no button and not the output area changes. *)
Theorem save_template_overwrites (items : list (string * widget))
    (path filetype : string) (g : gui) :
  write_error g path = None ->
  fst (save_template same_object items path filetype g) = inr tt /\
  files (snd (save_template same_object items path filetype g)) path
  = inr (join (map (template_line g) items)) /\
  (forall p, p <> path ->
             files (snd (save_template same_object items path filetype g)) p
             = files g p) /\
  values (snd (save_template same_object items path filetype g)) = values g /\
  trace (snd (save_template same_object items path filetype g)) = trace g /\
  buttons (snd (save_template same_object items path filetype g)) = buttons g /\
  files (snd (save_template same_object items path filetype
                (snd (save_template same_object items path filetype g)))) path
  = files (snd (save_template same_object items path filetype g)) path.
Proof.
  intros Hw.
  destruct (save_template_frame items path filetype g Hw)
    as [st [Hrun [Hf [Hothers [Hv [Hwe [Ht Hb]]]]]]].
  rewrite Hrun. cbn [fst snd].
  destruct (save_template_frame items path filetype st)
    as [st2 [Hrun2 [Hf2 _]]]; [now rewrite Hwe|].
  rewrite Hrun2. cbn [snd].
  repeat split; try assumption.
  rewrite Hf2, Hf. now rewrite (template_line_values g st items Hv).
Qed.

(** What [opt_select] leaves in the widgets when the operation has no help
    text and is not the rule of the menu. *)
Lemma opt_select_unknown (opt : string) (st : gui) :
  lookup opt help_conversion = None ->
  String.eqb opt "------" = false ->
  exists st',
    opt_select opt st = (inl (Py.KeyError opt), st') /\
    trace st' = trace st /\
    forall w,
      values st' w
      = if String.eqb opt "Set Command(s)" then values st w
        else if is_commit_widget w then "0" else values st w.
Proof.
  intros Hhelp Hdash. destruct st as [v b q t f wr tr]. unfold opt_select.
  destruct (String.eqb opt "Set Command(s)"); cbn [negb];
    repeat (rewrite bind_bind || step); rewrite Hdash;
    repeat (rewrite bind_bind || step);
    (erewrite bind_inl by (unfold getitem; rewrite Hhelp; reflexivity));
    eexists; (split; [reflexivity|]); (split; [reflexivity|]);
    intros w; cbn [values]; unfold upd; destruct w; reflexivity.
Qed.

Lemma opt_select_known (opt help : string) (st : gui) :
  lookup opt help_conversion = Some help ->
  exists st',
    opt_select opt st = (inr tt, st') /\
    trace st' = trace st /\
    values st' help_value = help /\
    forall w,
      w <> help_value ->
      values st' w
      = if String.eqb opt "Set Command(s)" then values st w
        else if is_commit_widget w then "0" else values st w.
Proof.
  intros Hhelp.
  assert (Hdash : String.eqb opt "------" = false).
  { destruct (String.eqb opt "------") eqn:E; [|reflexivity].
    apply String.eqb_eq in E. subst opt. discriminate Hhelp. }
  destruct st as [v b q t f wr tr]. unfold opt_select.
  destruct (String.eqb opt "Set Command(s)"); cbn [negb];
    repeat (rewrite bind_bind || step); rewrite Hdash;
    repeat (rewrite bind_bind || step);
    (erewrite bind_inr by (unfold getitem; rewrite Hhelp; reflexivity));
    unfold set; norm_state;
    eexists; (split; [reflexivity|]); (split; [reflexivity|]);
    (split; [reflexivity|]);
    intros w Hw; cbn [values]; unfold upd; destruct w; try contradiction; reflexivity.
Qed.

(** [open_template] up to the choice of the operation, for a file of which
    every line can be applied. *)
Lemma open_template_parsed (path filetype content : string) (g : gui) :
  files g path = inr content ->
  Forall (fun l => exists wv, parse_line l = inr wv) (Py.readlines content) ->
  open_template same_object path filetype g
  = try_finally
      (try_except
         (opt_select (applied (Py.readlines content) (values g) option_value) ;;
          check_wtf)
         (fun e =>
            Some (write_to_output_area same_object
                    (Py.VStr ("Could not open template. Error:" ++ nl ++ Py.str_exn e)))))
      (file_close path)
      (with_values (applied (Py.readlines content) (values g)) g).
Proof.
  intros Hfile Hlines.
  unfold open_template, try_except_else at 1, open_rb. rewrite Hfile.
  unfold try_finally, try_except, try_except_else.
  erewrite bind_inr by (apply for_each_parsed; exact Hlines).
  unfold bind at 1, get at 1. cbn [values with_values]. reflexivity.
Qed.

Lemma open_template_known_run
    (path filetype content help : string) (g : gui) (w : widget) :
  files g path = inr content ->
  Forall (fun l => exists wv, parse_line l = inr wv) (Py.readlines content) ->
  lookup (applied (Py.readlines content) (values g) option_value) help_conversion
  = Some help ->
  w <> help_value ->
  values (snd (open_template same_object path filetype g)) w
  = if String.eqb (applied (Py.readlines content) (values g) option_value)
         "Set Command(s)"
    then applied (Py.readlines content) (values g) w
    else if is_commit_widget w then "0"
    else applied (Py.readlines content) (values g) w.
Proof.
  intros Hfile Hlines Hhelp Hne.
  rewrite (open_template_parsed path filetype content g Hfile Hlines).
  destruct (opt_select_known _ help
              (with_values (applied (Py.readlines content) (values g)) g) Hhelp)
    as [st' [Hrun [Ht [Hh Hw]]]].
  unfold try_finally, try_except, try_except_else.
  erewrite bind_inr by exact Hrun.
  unfold check_wtf, bind, checked, ret, file_close. cbn [fst snd].
  cbn [values trace with_values] in Hw. exact (Hw w Hne).
Qed.

Lemma open_template_unknown_operation_run
    (path filetype content : string) (g : gui) (w : widget) :
  files g path = inr content ->
  Forall (fun l => exists wv, parse_line l = inr wv) (Py.readlines content) ->
  lookup (applied (Py.readlines content) (values g) option_value) help_conversion
  = None ->
  applied (Py.readlines content) (values g) option_value <> "------" ->
  values (snd (open_template same_object path filetype g)) w
  = if String.eqb (applied (Py.readlines content) (values g) option_value)
         "Set Command(s)"
    then applied (Py.readlines content) (values g) w
    else if is_commit_widget w then "0"
    else applied (Py.readlines content) (values g) w.
Proof.
  intros Hfile Hlines Hhelp Hdash. apply String.eqb_neq in Hdash.
  rewrite (open_template_parsed path filetype content g Hfile Hlines).
  destruct (opt_select_unknown _
              (with_values (applied (Py.readlines content) (values g)) g) Hhelp Hdash)
    as [st' [Hrun [Ht Hw]]].
  unfold try_finally, try_except, try_except_else.
  erewrite bind_inl by exact Hrun.
  rewrite write_to_output_area_run.
  unfold file_close, ret. cbn [fst snd trace values with_trace].
  cbn [values trace with_values] in Hw. exact (Hw w).
Qed.

(** X20.  A template of which every line can be applied and whose operation has
    a help text is loaded without a notice: the lines are applied in
    order, a later line for the same field overriding an earlier one, then
    the help text of the operation is shown and, unless the operation is
    Set Command(s), the six commit check boxes are deselected, whatever
    the file said about them. *)
Theorem open_template_applies_every_line
    (path filetype content help : string) (g : gui) (w : widget) :
  files g path = inr content ->
  Forall (fun l => exists wv, parse_line l = inr wv) (Py.readlines content) ->
  lookup (applied (Py.readlines content) (values g) option_value) help_conversion
  = Some help ->
  fst (open_template same_object path filetype g) = inr tt /\
  trace (snd (open_template same_object path filetype g)) = trace g /\
  values (snd (open_template same_object path filetype g)) help_value = help /\
  (w <> help_value ->
   values (snd (open_template same_object path filetype g)) w
   = if String.eqb (applied (Py.readlines content) (values g) option_value)
          "Set Command(s)"
     then applied (Py.readlines content) (values g) w
     else if is_commit_widget w then "0"
     else applied (Py.readlines content) (values g) w).
Proof.
  intros Hfile Hlines Hhelp.
  rewrite (open_template_parsed path filetype content g Hfile Hlines).
  destruct (opt_select_known _ help
              (with_values (applied (Py.readlines content) (values g)) g) Hhelp)
    as [st' [Hrun [Ht [Hh Hw]]]].
  unfold try_finally, try_except, try_except_else.
  erewrite bind_inr by exact Hrun.
  unfold check_wtf, bind, checked, ret, file_close. cbn [fst snd].
  cbn [values trace with_values] in Ht, Hw.
  split; [reflexivity|]. split; [exact Ht|]. split; [exact Hh|].
  intros Hne. exact (Hw w Hne).
Qed.

(** X21.  A template of which every line can be applied but whose operation is
    not one of the menu is applied all the same, commit check boxes
    included; the missing help text is then reported as the one notice
    [Could not open template], with the operation as the error. *)
Theorem open_template_reports_unknown_operation
    (path filetype content : string) (g : gui) (w : widget) :
  files g path = inr content ->
  Forall (fun l => exists wv, parse_line l = inr wv) (Py.readlines content) ->
  lookup (applied (Py.readlines content) (values g) option_value) help_conversion
  = None ->
  applied (Py.readlines content) (values g) option_value <> "------" ->
  fst (open_template same_object path filetype g) = inr tt /\
  trace (snd (open_template same_object path filetype g))
  = (trace g
       ++ [Insert (with_newline same_object
                     (parse_failure_notice
                        (Py.KeyError
                           (applied (Py.readlines content) (values g) option_value))))])%list /\
  values (snd (open_template same_object path filetype g)) w
  = (if String.eqb (applied (Py.readlines content) (values g) option_value)
          "Set Command(s)"
     then applied (Py.readlines content) (values g) w
     else if is_commit_widget w then "0"
     else applied (Py.readlines content) (values g) w).
Proof.
  intros Hfile Hlines Hhelp Hdash. apply String.eqb_neq in Hdash.
  rewrite (open_template_parsed path filetype content g Hfile Hlines).
  destruct (opt_select_unknown _
              (with_values (applied (Py.readlines content) (values g)) g) Hhelp Hdash)
    as [st' [Hrun [Ht Hw]]].
  unfold try_finally, try_except, try_except_else.
  erewrite bind_inl by exact Hrun.
  rewrite write_to_output_area_run.
  unfold file_close, ret. cbn [fst snd trace values with_trace].
  cbn [values trace with_values] in Ht, Hw.
  split; [reflexivity|]. split; [now rewrite Ht|]. exact (Hw w).
Qed.

End MoreTemplates.

Section LoadedValues.

Variable same_object : string -> string -> bool.

(** The widgets after [open_template], for a file of which every line can
    be applied and whose operation is not the rule of the menu. *)
Lemma open_template_values (path filetype content : string) (g : gui) (w : widget) :
  files g path = inr content ->
  Forall (fun l => exists wv, parse_line l = inr wv) (Py.readlines content) ->
  applied (Py.readlines content) (values g) option_value <> "------" ->
  w <> help_value ->
  values (snd (open_template same_object path filetype g)) w
  = if String.eqb (applied (Py.readlines content) (values g) option_value)
         "Set Command(s)"
    then applied (Py.readlines content) (values g) w
    else if is_commit_widget w then "0"
    else applied (Py.readlines content) (values g) w.
Proof.
  intros Hfile Hlines Hdash Hw.
  destruct (lookup (applied (Py.readlines content) (values g) option_value)
              help_conversion) as [help|] eqn:Hhelp.
  - now apply (open_template_known_run same_object path filetype content help).
  - now apply (open_template_unknown_operation_run same_object path filetype content).
Qed.

Lemma applied_snoc (lines : list string) (line : string) (f : widget -> string) :
  applied (lines ++ [line]) f
  = match parse_line line with
    | inr (w, v) => upd (applied lines f) w v
    | inl _ => applied lines f
    end.
Proof. unfold applied. rewrite fold_left_app. reflexivity. Qed.

(** A field that no line names keeps its value. *)
Lemma applied_unnamed (lines : list string) (w : widget) :
  forall f,
    (forall l v, In l lines -> parse_line l <> inr (w, v)) ->
    applied lines f w = f w.
Proof.
  unfold applied. induction lines as [|l lines IH]; intros f H; [reflexivity|].
  cbn [fold_left]. rewrite IH by (intros l' v Hl; apply H; now right).
  destruct (parse_line l) as [e|[x v]] eqn:El; [reflexivity|].
  unfold upd. destruct (widget_eq_dec w x) as [->|_]; [|reflexivity].
  exfalso. apply (H l v); [now left | exact El].
Qed.

(** The value of a field is the one of the last line that names it. *)
Lemma applied_last (before after : list string) (line : string)
    (w : widget) (v : string) (f : widget -> string) :
  parse_line line = inr (w, v) ->
  (forall l v', In l after -> parse_line l <> inr (w, v')) ->
  applied (before ++ line :: after) f w = v.
Proof.
  intros Hl Hafter.
  replace (before ++ line :: after)%list with ((before ++ [line]) ++ after)%list
    by (now rewrite <- app_assoc).
  unfold applied. rewrite fold_left_app.
  fold (applied (before ++ [line]) f).
  fold (applied after (applied (before ++ [line]) f)).
  rewrite (applied_unnamed after w _ Hafter), applied_snoc, Hl.
  unfold upd. destruct (widget_eq_dec w w); [reflexivity | contradiction].
Qed.

(** X22.  Loading a template is an overlay, and of several lines for one field
    the last one counts.  For a file of which every line can be applied: a
    widget, other than the help text and the commit check boxes, that no
    line names keeps the value it had, and one that is named holds the
    value of the last line that names it, wherever in the file the line
    stands. *)
Theorem open_template_overlays_last_line_wins
    (path filetype content : string) (g : gui) (w : widget) :
  files g path = inr content ->
  Forall (fun l => exists wv, parse_line l = inr wv) (Py.readlines content) ->
  applied (Py.readlines content) (values g) option_value <> "------" ->
  w <> help_value ->
  is_commit_widget w = false ->
  ((forall l v, In l (Py.readlines content) -> parse_line l <> inr (w, v)) ->
   values (snd (open_template same_object path filetype g)) w = values g w) /\
  (forall before after line v,
     Py.readlines content = (before ++ line :: after)%list ->
     parse_line line = inr (w, v) ->
     (forall l v', In l after -> parse_line l <> inr (w, v')) ->
     values (snd (open_template same_object path filetype g)) w = v).
Proof.
  intros Hfile Hlines Hdash Hw Hc.
  pose proof (open_template_values path filetype content g w Hfile Hlines Hdash Hw) as H.
  rewrite Hc in H.
  assert (H' : values (snd (open_template same_object path filetype g)) w
               = applied (Py.readlines content) (values g) w)
    by (rewrite H; destruct (String.eqb _ _); reflexivity).
  split.
  - intros Hun. rewrite H'. now apply applied_unnamed.
  - intros before after line v Hsplit Hl Hafter. rewrite H', Hsplit.
    now apply applied_last.
Qed.

(** X23.  A value that contains the separator is cut there: of a line
    [Name:~:first:~:rest] only [first], without its trailing whitespace,
    reaches the widget; the rest of the line is dropped without a notice. *)
Theorem value_is_cut_at_separator (name first rest : string) (w : widget) (g : gui) :
  In (name, w) template_opts ->
  String.eqb name "Password" = false ->
  Py.mem_char ":"%char first = false ->
  apply_line (name ++ separator ++ first ++ separator ++ rest) g
  = (inr tt, with_values (upd (values g) w (Py.rstrip first)) g).
Proof.
  intros Hin Hp Hfirst.
  destruct (template_item_facts name w Hin) as [Hcolon [_ [Hlook _]]].
  rewrite apply_line_parse. unfold parse_line, Py.split.
  rewrite split_from_name by exact Hcolon.
  rewrite split_from_name by exact Hfirst.
  cbn [append]. rewrite Hp, Hlook. reflexivity.
Qed.

End LoadedValues.

Section OutsideTheTemplate.

Variable same_object : string -> string -> bool.
Variable g : gui.

Hypothesis values_storable :
  forall name w, In (name, w) template_opts -> w <> password_entry ->
                 storable (values g w) = true.

Lemma not_an_item (items : list (string * widget)) (w : widget) :
  (forall item, In item items -> In item template_opts) ->
  (forall name, ~ In (name, w) template_opts) ->
  existsb (fun item => if widget_eq_dec w (snd item) then true else false) items = false.
Proof.
  intros Hin Hw.
  destruct (existsb _ items) eqn:E; [|reflexivity].
  apply existsb_exists in E. destruct E as [[name x] [Hitem Hx]].
  cbn [snd] in Hx. destruct (widget_eq_dec w x) as [->|_]; [|discriminate].
  exfalso. apply (Hw name). now apply Hin.
Qed.

(** X24.  The port and the connection timeout are no fields of a template: a
    template saved from one window and loaded into another leaves the port
    and the connection timeout of the window it is loaded into. *)
Theorem template_leaves_port_and_connection_timeout
    (items : list (string * widget)) (path filetype : string)
    (others : widget -> string) :
  Permutation items template_opts ->
  write_error g path = None ->
  values g option_value <> "------" ->
  values (reloaded same_object items path filetype others g) port_entry
  = others port_entry /\
  values (reloaded same_object items path filetype others g) conn_timeout_entry
  = others conn_timeout_entry.
Proof.
  intros Hperm Hwrite Hdash.
  assert (Hin : forall item, In item items -> In item template_opts)
    by (intros item; apply Permutation_in; exact Hperm).
  destruct (save_template_run same_object g items path filetype Hwrite)
    as [st [Hsave [Hfile [Hvals Htr]]]].
  unfold reloaded. rewrite Hsave. cbn [snd].
  assert (Hlines : Py.readlines (join (map (template_line g) items))
                   = map (template_line g) items)
    by (apply readlines_template; assumption).
  assert (Hparse : Forall (fun l => exists wv, parse_line l = inr wv)
                     (Py.readlines (join (map (template_line g) items))))
    by (rewrite Hlines; apply parse_template_lines; assumption).
  assert (Hopt : applied (Py.readlines (join (map (template_line g) items)))
                   (values (with_values others st)) option_value
                 <> "------").
  { rewrite Hlines. cbn [values with_values].
    rewrite (applied_template_lines g values_storable items Hin).
    rewrite (in_items_existsb items "Option" option_value); [exact Hdash|].
    apply (Permutation_in _ (Permutation_sym Hperm)). cbn. tauto. }
  split.
  - rewrite (open_template_values same_object path filetype _ (with_values others st)
               port_entry Hfile Hparse Hopt) by discriminate.
    rewrite Hlines. cbn [values with_values is_commit_widget].
    rewrite !(applied_template_lines g values_storable items Hin).
    rewrite (not_an_item items port_entry); [now destruct (String.eqb _ _) | exact Hin |].
    intros name H. unfold template_opts in H. cbn [In] in H.
    repeat (destruct H as [H|H]; [inversion H|]). contradiction.
  - rewrite (open_template_values same_object path filetype _ (with_values others st)
               conn_timeout_entry Hfile Hparse Hopt) by discriminate.
    rewrite Hlines. cbn [values with_values is_commit_widget].
    rewrite !(applied_template_lines g values_storable items Hin).
    rewrite (not_an_item items conn_timeout_entry); [now destruct (String.eqb _ _) | exact Hin |].
    intros name H. unfold template_opts in H. cbn [In] in H.
    repeat (destruct H as [H|H]; [inversion H|]). contradiction.
Qed.

End OutsideTheTemplate.

(** ** What validation lets through *)

Lemma match_classes_append (p : list (ascii -> bool)) :
  forall s suffix, match_classes p s = true -> match_classes p (s ++ suffix) = true.
Proof.
  induction p as [|k p IH]; intros s suffix H; [reflexivity|].
  destruct s as [|c s]; [discriminate|]. cbn [append match_classes] in *.
  apply andb_true_iff in H. destruct H as [Hk Hp].
  now rewrite Hk, (IH s suffix Hp).
Qed.

Lemma at_time_condition_append (on : bool) (text suffix : string) :
  on && (String.eqb text "" ||
         (negb (match_classes re_time text) && negb (match_classes re_datetime text)))
  = false ->
  on && (String.eqb (text ++ suffix) "" ||
         (negb (match_classes re_time (text ++ suffix)) &&
          negb (match_classes re_datetime (text ++ suffix))))
  = false.
Proof.
  destruct on; [|reflexivity]. cbn [andb]. intros H.
  apply orb_false_iff in H. destruct H as [Hne H].
  destruct text as [|c text]; [discriminate|]. cbn [append String.eqb orb].
  destruct (match_classes re_time (String c text)) eqn:Et.
  - change (String c (text ++ suffix)) with (String c text ++ suffix).
    now rewrite (match_classes_append _ _ suffix Et).
  - destruct (match_classes re_datetime (String c text)) eqn:Ed; [|discriminate].
    change (String c (text ++ suffix)) with (String c text ++ suffix).
    rewrite (match_classes_append _ _ suffix Ed). apply andb_false_r.
Qed.

(** X4.  The at-time is matched at its start only: when a window passes
    validation, it still passes with any text added behind the at-time, so
    that what follows a well-formed time is not looked at. *)
Theorem validation_accepts_text_after_the_time (g : gui) (suffix : string) :
  fst (input_validation g) = inr true ->
  fst (input_validation
         (with_values
            (upd (values g) commit_at_entry (values g commit_at_entry ++ suffix)) g))
  = inr true.
Proof.
  destruct g as [v b q t f wr tr].
  unfold input_validation, bind, get, checked, try_except_else, lift, ret, emit.
  cbn -[match_classes re_time re_datetime append].
  repeat match goal with
  | |- context [if ?c then _ else _] =>
      let E := fresh "E" in
      destruct c eqn:E; cbn -[match_classes re_time re_datetime append];
      try (intros H; discriminate H);
      try (rewrite (at_time_condition_append _ _ suffix E);
           cbn -[match_classes re_time re_datetime append])
  end.
  all: try (intros _; reflexivity).
  all: destruct (Py.int_of_str _) as [e|n] eqn:En; cbn; try (intros _; reflexivity).
  all: destruct (int_of_str_error _ _ En) as [msg ->]; cbn; intros H; discriminate H.
Qed.

(** ** Saving the output *)

(** X25.  [save_output] never raises.  On Cancel it does nothing; when the file
    cannot be opened it shows one message box and touches no file; else
    the file holds exactly the text of the output area, whatever it held
    before, and no other file changes.  In no case does a widget, a
    button or the output area change. *)
Theorem save_output_reports_open_failure (return_file shown : string) (g : gui) :
  fst (save_output return_file shown g) = inr tt /\
  values (snd (save_output return_file shown g)) = values g /\
  buttons (snd (save_output return_file shown g)) = buttons g /\
  inserted (trace (snd (save_output return_file shown g))) = inserted (trace g) /\
  (forall p, p <> return_file ->
             files (snd (save_output return_file shown g)) p = files g p) /\
  if String.eqb return_file "" then snd (save_output return_file shown g) = g
  else match write_error g return_file with
       | Some _ =>
           snd (save_output return_file shown g)
           = with_trace
               (trace g ++ [ShowInfo "Couldn't open file."
                              "The file you specified could not be opened."]) g
       | None =>
           files (snd (save_output return_file shown g)) return_file = inr shown /\
           trace (snd (save_output return_file shown g)) = trace g
       end.
Proof.
  destruct g as [v b q t f wr tr]. unfold save_output.
  destruct (String.eqb return_file "") eqn:E.
  - unfold ret. cbn [fst snd values buttons trace files].
    split; [reflexivity|]. split; [reflexivity|]. split; [reflexivity|].
    split; [reflexivity|]. split; [intros p _; reflexivity | reflexivity].
  - unfold try_except_else, open_wb. cbn [write_error].
    destruct (wr return_file) as [err|] eqn:Ew.
    + unfold emit. norm_state. cbn [fst snd values buttons trace files].
      split; [reflexivity|]. split; [reflexivity|]. split; [reflexivity|].
      split; [|split; [intros p _; reflexivity | reflexivity]].
      rewrite inserted_app. cbn [inserted]. now rewrite append_nil_r.
    + unfold bind, file_write, file_close, ret. norm_state.
      cbn [fst snd values buttons trace files]. unfold upd_file.
      rewrite String.eqb_refl. cbn [append].
      split; [reflexivity|]. split; [reflexivity|]. split; [reflexivity|].
      split; [reflexivity|]. split; [|split; reflexivity].
      intros p Hp. apply String.eqb_neq in Hp. now rewrite Hp.
Qed.

(** ** The password line *)

(** X26.  The password is stored for every text: whatever the password entry
    holds, blanks, line ends and separators included, the line
    [save_template] writes for it is applied without an error and puts
    the same text back. *)
Theorem password_line_restores_any_text (g st : gui) :
  Py.readlines (template_line g ("Password", password_entry))
  = [template_line g ("Password", password_entry)] /\
  apply_line (template_line g ("Password", password_entry)) st
  = (inr tt, with_values (upd (values st) password_entry (values g password_entry)) st).
Proof.
  destruct (storable_facts _
              (plain_storable _ (b64encode_plain (values g password_entry))))
    as [Hnl [Hsep Hstrip]].
  unfold template_line, template_text. cbn [fst snd String.eqb Ascii.eqb Bool.eqb].
  split.
  - unfold Py.readlines.
    replace ("Password" ++ separator ++ Base64.b64encode (values g password_entry) ++ nl)
      with (("Password" ++ separator ++ Base64.b64encode (values g password_entry))
              ++ nl ++ EmptyString)
      by (now rewrite !append_assoc).
    rewrite readlines_from_line.
    + cbn [append Py.readlines_from]. now rewrite !append_assoc.
    + rewrite !mem_char_append, Hnl. reflexivity.
  - rewrite apply_line_parse. unfold parse_line.
    rewrite (split_template_line "Password" _ eq_refl Hsep).
    cbn [String.eqb Ascii.eqb Bool.eqb].
    rewrite rstrip_line, Hstrip, Base64Facts.b64decode_b64encode. reflexivity.
Qed.

(** ** The further properties at concrete windows *)

(** A well-formed time followed by other text passes validation. *)
Lemma validation_accepts_text_after_the_time_witness :
  fst (input_validation at_time_gui) = inr true /\
  fst (input_validation
         (with_values
            (upd (values at_time_gui) commit_at_entry
               (values at_time_gui commit_at_entry ++ " or so")) at_time_gui))
  = inr true.
Proof.
  split; [reflexivity|].
  apply (validation_accepts_text_after_the_time at_time_gui " or so"). reflexivity.
Defined.

(** The fresh window has no address: a click on Run Script shows one
    message box. *)
Lemma go_rejected_shows_dialog_only_witness :
  fst (input_validation init_gui) = inr false /\
  exists title message,
    go shared_strings one_per_comma [] true init_gui
    = (inr tt, with_trace (trace init_gui ++ [ShowInfo title message]) init_gui).
Proof.
  split; [reflexivity|].
  apply (go_rejected_shows_dialog_only shared_strings one_per_comma [] true init_gui).
  reflexivity.
Defined.


(** The first tick of a run of Device Info. *)
Lemma go_locks_buttons_while_running_witness :
  fst (input_validation ready_gui) = inr true /\
  lookup (values ready_gui option_value) option_conversion = Some wrap_device_info /\
  (is_on ready_gui commit_confirmed_button = true ->
   Py.int_of_str (values ready_gui commit_confirmed_min_entry) = inr 0%Z) /\
  exists w,
    trace (snd (go shared_strings one_per_comma [] true ready_gui))
    = (trace ready_gui ++ [MarkSetEnd] ++ render shared_strings (Py.VStr start_notice)
         ++ [Start w] ++ running_buttons
         ++ flat_map (render shared_strings) (firstn 1 (stdout_queue ready_gui))
         ++ [After 100])%list /\
    buttons (snd (go shared_strings one_per_comma [] true ready_gui)) go_button = disabled /\
    buttons (snd (go shared_strings one_per_comma [] true ready_gui)) clear_button = disabled /\
    buttons (snd (go shared_strings one_per_comma [] true ready_gui)) save_button = disabled /\
    buttons (snd (go shared_strings one_per_comma [] true ready_gui)) stop_button = normal /\
    values (snd (go shared_strings one_per_comma [] true ready_gui)) = values ready_gui.
Proof.
  split; [reflexivity|]. split; [reflexivity|].
  split; [intros H; discriminate H|].
  apply (go_locks_buttons_while_running shared_strings one_per_comma [] ready_gui
           wrap_device_info 0%Z).
  - reflexivity.
  - reflexivity.
  - intros H. discriminate H.
Defined.

(** A run of Device Info whose worker puts two chunks and ends. *)
Lemma complete_run_returns_to_rest_witness :
  fst (input_validation ready_gui) = inr true /\
  lookup (values ready_gui option_value) option_conversion = Some wrap_device_info /\
  (is_on ready_gui commit_confirmed_button = true ->
   Py.int_of_str (values ready_gui commit_confirmed_min_entry) = inr 0%Z) /\
  stdout_queue
    (snd (run shared_strings one_per_comma [[Py.VStr "r1"]] [Py.VStr "MX80"] ready_gui))
  = [] /\
  inserted
    (trace (snd (run shared_strings one_per_comma [[Py.VStr "r1"]] [Py.VStr "MX80"]
                   ready_gui)))
  = inserted (trace ready_gui) ++ with_newline shared_strings start_notice
    ++ inserted (flat_map (render shared_strings)
                   (stdout_queue ready_gui ++ List.concat [[Py.VStr "r1"]]
                      ++ [Py.VStr "MX80"]))
    ++ with_newline shared_strings completed_notice.
Proof.
  split; [reflexivity|]. split; [reflexivity|].
  split; [intros H; discriminate H|].
  assert (H := complete_run_returns_to_rest shared_strings one_per_comma
                 [[Py.VStr "r1"]] [Py.VStr "MX80"] ready_gui wrap_device_info 0%Z
                 eq_refl eq_refl (fun H => ltac:(discriminate H))).
  split; [apply H | apply H].
Defined.

(** A template that breaks off after it has checked the Confirmed Minutes
    box leaves the box checked with Device Info chosen: the next run
    raises. *)
Lemma go_raises_on_unvalidated_minutes_witness :
  exists e,
    fst (input_validation half_loaded_gui) = inr true /\
    lookup (values half_loaded_gui option_value) option_conversion
    = Some wrap_device_info /\
    is_on half_loaded_gui commit_confirmed_button = true /\
    Py.int_of_str (values half_loaded_gui commit_confirmed_min_entry) = inl e /\
    values half_loaded_gui option_value <> "Set Command(s)" /\
    go shared_strings one_per_comma [] true half_loaded_gui
    = (inl e,
       with_trace
         (trace half_loaded_gui ++ [MarkSetEnd]
            ++ render shared_strings (Py.VStr start_notice)) half_loaded_gui).
Proof.
  eexists.
  split; [vm_compute; reflexivity|]. split; [vm_compute; reflexivity|].
  split; [vm_compute; reflexivity|]. split; [vm_compute; reflexivity|].
  apply (go_raises_on_unvalidated_minutes shared_strings one_per_comma [] true
           half_loaded_gui wrap_device_info).
  - vm_compute; reflexivity.
  - vm_compute; reflexivity.
  - vm_compute; reflexivity.
  - vm_compute; reflexivity.
Defined.


(** Ninety minutes pass validation and are handed on as 5400 seconds. *)
Lemma confirmed_is_sixty_times_minutes_witness :
  fst (input_validation long_confirm_gui) = inr true /\
  values long_confirm_gui option_value = "Set Command(s)" /\
  is_on long_confirm_gui commit_confirmed_button = true /\
  Py.int_of_str (values long_confirm_gui commit_confirmed_min_entry) = inr 90%Z /\
  exists w,
    thread (snd (go shared_strings one_per_comma [] true long_confirm_gui)) = Some w /\
    argsToPass w = commit_bundle long_confirm_gui (Py.VInt (90 * 60)).
Proof.
  split; [reflexivity|]. split; [reflexivity|]. split; [reflexivity|].
  split; [reflexivity|].
  apply (confirmed_is_sixty_times_minutes shared_strings one_per_comma [] true
           long_confirm_gui 90%Z).
  - reflexivity.
  - reflexivity.
  - reflexivity.
  - reflexivity.
Defined.

(** A click on At Time in a window with Confirmed Minutes checked. *)
Lemma click_keeps_confirmed_alone_witness :
  In (commit_at, "at") commit_boxes /\
  confirmed_alone commit_gui = true /\
  confirmed_alone (snd (click (commit_at, "at") commit_gui)) = true.
Proof.
  assert (Hin : In (commit_at, "at") commit_boxes) by (cbn; tauto).
  split; [exact Hin|]. split; [reflexivity|].
  apply (click_keeps_confirmed_alone commit_gui (commit_at, "at") Hin). reflexivity.
Defined.

(** A click on Blank in a window with At Time checked leaves both checked. *)
Lemma at_time_and_blank_exclude_one_way_witness :
  is_on at_time_gui commit_blank = false /\
  is_on (snd (click (commit_blank, "blank") at_time_gui)) commit_blank = true /\
  is_on (snd (click (commit_blank, "blank") at_time_gui)) commit_at
  = is_on at_time_gui commit_at.
Proof.
  split; [reflexivity|].
  apply (proj2 (at_time_and_blank_exclude_one_way at_time_gui)). reflexivity.
Defined.

(** Health Check chosen in a window with Confirmed Minutes checked. *)
Lemma opt_select_known_operation_witness :
  exists help,
    lookup "Health Check" help_conversion = Some help /\
    fst (opt_select "Health Check" commit_gui) = inr tt /\
    values (snd (opt_select "Health Check" commit_gui)) help_value = help /\
    (commit_confirmed_button <> help_value ->
     values (snd (opt_select "Health Check" commit_gui)) commit_confirmed_button
     = if String.eqb "Health Check" "Set Command(s)"
       then values commit_gui commit_confirmed_button
       else if is_commit_widget commit_confirmed_button then "0"
       else values commit_gui commit_confirmed_button) /\
    trace (snd (opt_select "Health Check" commit_gui)) = trace commit_gui.
Proof.
  eexists. split; [reflexivity|].
  apply (opt_select_known_operation "Health Check" _ commit_gui commit_confirmed_button).
  reflexivity.
Defined.

(** The window of [ready_gui] saved over an older file. *)
Lemma save_template_overwrites_witness :
  write_error (gui_with_file "router.tpl" stale_template ready_gui) "router.tpl" = None /\
  files (snd (save_template shared_strings template_opts "router.tpl" "template"
                (gui_with_file "router.tpl" stale_template ready_gui))) "router.tpl"
  = inr (join (map (template_line (gui_with_file "router.tpl" stale_template ready_gui))
                 template_opts)).
Proof.
  split; [reflexivity|].
  exact (proj1 (proj2 (save_template_overwrites shared_strings template_opts
                         "router.tpl" "template"
                         (gui_with_file "router.tpl" stale_template ready_gui)
                         eq_refl))).
Defined.

(** The four lines of [four_lines] loaded into the fresh window. *)
Lemma open_template_applies_every_line_witness :
  exists help,
    files (gui_with_file "router.tpl" (join four_lines) init_gui) "router.tpl"
    = inr (join four_lines) /\
    Forall (fun l => exists wv, parse_line l = inr wv) (Py.readlines (join four_lines)) /\
    lookup (applied (Py.readlines (join four_lines)) (values init_gui) option_value)
      help_conversion = Some help /\
    fst (open_template shared_strings "router.tpl" "template"
           (gui_with_file "router.tpl" (join four_lines) init_gui)) = inr tt /\
    trace (snd (open_template shared_strings "router.tpl" "template"
                  (gui_with_file "router.tpl" (join four_lines) init_gui)))
    = trace init_gui.
Proof.
  assert (Hlines : Forall (fun l => exists wv, parse_line l = inr wv)
                     (Py.readlines (join four_lines)))
    by (repeat constructor; eexists; reflexivity).
  eexists. split; [reflexivity|]. split; [exact Hlines|]. split; [reflexivity|].
  assert (H := open_template_applies_every_line shared_strings "router.tpl" "template"
                 (join four_lines) _
                 (gui_with_file "router.tpl" (join four_lines) init_gui) ip_entry
                 eq_refl Hlines eq_refl).
  split; [apply H | apply H].
Defined.

(** A template that asks for an operation the menu does not have. *)
Lemma open_template_reports_unknown_operation_witness :
  files (gui_with_file "router.tpl" unknown_operation_template init_gui) "router.tpl"
  = inr unknown_operation_template /\
  Forall (fun l => exists wv, parse_line l = inr wv)
    (Py.readlines unknown_operation_template) /\
  applied (Py.readlines unknown_operation_template) (values init_gui) option_value
  = "Reboot" /\
  trace (snd (open_template shared_strings "router.tpl" "template"
                (gui_with_file "router.tpl" unknown_operation_template init_gui)))
  = (trace init_gui
       ++ [Insert (with_newline shared_strings
                     (parse_failure_notice (Py.KeyError "Reboot")))])%list /\
  values (snd (open_template shared_strings "router.tpl" "template"
                 (gui_with_file "router.tpl" unknown_operation_template init_gui)))
    ip_entry
  = "10.0.0.1".
Proof.
  assert (Hlines : Forall (fun l => exists wv, parse_line l = inr wv)
                     (Py.readlines unknown_operation_template))
    by (repeat constructor; eexists; reflexivity).
  split; [reflexivity|]. split; [exact Hlines|]. split; [reflexivity|].
  assert (H := open_template_reports_unknown_operation shared_strings "router.tpl"
                 "template" unknown_operation_template
                 (gui_with_file "router.tpl" unknown_operation_template init_gui)
                 ip_entry eq_refl Hlines eq_refl
                 (fun H => ltac:(discriminate H))).
  split; [apply H | apply H].
Defined.

(** Of two lines for the address the second one counts. *)
Lemma open_template_overlays_last_line_wins_witness :
  files (gui_with_file "router.tpl" twice_template init_gui) "router.tpl"
  = inr twice_template /\
  Forall (fun l => exists wv, parse_line l = inr wv) (Py.readlines twice_template) /\
  values (snd (open_template shared_strings "router.tpl" "template"
                 (gui_with_file "router.tpl" twice_template init_gui))) ip_entry
  = "10.0.0.2".
Proof.
  assert (Hlines : Forall (fun l => exists wv, parse_line l = inr wv)
                     (Py.readlines twice_template))
    by (repeat constructor; eexists; reflexivity).
  split; [reflexivity|]. split; [exact Hlines|].
  apply (proj2 (open_template_overlays_last_line_wins shared_strings "router.tpl"
                  "template" twice_template
                  (gui_with_file "router.tpl" twice_template init_gui) ip_entry
                  eq_refl Hlines (fun H => ltac:(discriminate H))
                  (fun H => ltac:(discriminate H)) eq_refl)
           [("IP:~:10.0.0.1" ++ nl)%string; ("Username:~:admin" ++ nl)%string] []
           ("IP:~:10.0.0.2" ++ nl)%string "10.0.0.2").
  - reflexivity.
  - reflexivity.
  - intros l v' H. contradiction H.
Defined.

(** A destination that holds the separator. *)
Lemma value_is_cut_at_separator_witness :
  In ("SCPDest", scp_dest_entry) template_opts /\
  Py.mem_char ":"%char "/var/tmp" = false /\
  apply_line ("SCPDest" ++ separator ++ "/var/tmp" ++ separator ++ "old" ++ nl) ready_gui
  = (inr tt, with_values (upd (values ready_gui) scp_dest_entry (Py.rstrip "/var/tmp"))
               ready_gui).
Proof.
  assert (Hin : In ("SCPDest", scp_dest_entry) template_opts) by (cbn; tauto).
  split; [exact Hin|]. split; [reflexivity|].
  apply (value_is_cut_at_separator "SCPDest" "/var/tmp" ("old" ++ nl) scp_dest_entry
           ready_gui Hin).
  - reflexivity.
  - reflexivity.
Defined.

(** The template of [ready_gui] loaded into a window on port 830. *)
Lemma template_leaves_port_and_connection_timeout_witness :
  (forall name w, In (name, w) template_opts -> w <> password_entry ->
                  storable (values ready_gui w) = true) /\
  Permutation template_opts template_opts /\
  write_error ready_gui "router.tpl" = None /\
  values ready_gui option_value <> "------" /\
  values (reloaded shared_strings template_opts "router.tpl" "template"
            (upd init_values port_entry "830") ready_gui) port_entry
  = upd init_values port_entry "830" port_entry.
Proof.
  assert (Hst : forall name w, In (name, w) template_opts -> w <> password_entry ->
                               storable (values ready_gui w) = true).
  { intros name w Hin _. cbn [template_opts In] in Hin.
    repeat (destruct Hin as [Hin|Hin]; [injection Hin as <- <-; reflexivity|]).
    contradiction. }
  split; [exact Hst|]. split; [apply Permutation_refl|].
  split; [reflexivity|]. split; [discriminate|].
  apply (template_leaves_port_and_connection_timeout shared_strings ready_gui Hst
           template_opts "router.tpl" "template" (upd init_values port_entry "830")
           (Permutation_refl _) eq_refl (fun H => ltac:(discriminate H))).
Defined.
